(** * adaptive-rag: the workflow graph and its nodes

    A shallow embedding of [src/workflow] (state.py, graph.py and the nodes
    retrieve.py, generate.py, web_search.py) together with the part of the
    LangGraph [StateGraph] interface that graph.py uses.

    The hosted services (retriever, Tavily search, the language-model
    chains) are outside the program.  They are taken as oracles that
    receive, besides their input, the logical time of the call, so that two
    calls with the same input may answer differently. *)

From Stdlib Require Import Ascii.
From stdpp Require Import base option strings list gmap.

(** ** Python values used by the workflow *)

(** [score.binary_score] is tested for truthiness in graph.py.  The schema
    classes of the hallucination and answer graders
    (workflow/chains/hallucination_grader.py, answer_grader.py) are not
    among the sources, so the field's type is left open: a Python [str], as
    [GradeDocuments] declares it and as tests/test_chains.py compares it
    with ['no'], or a [bool]. *)
Inductive pyval : Type :=
  | PyBool (b : bool)
  | PyStr (s : string).

(** Python's [bool(v)]: a string is true unless it is empty. *)
Definition truthy (v : pyval) : bool :=
  match v with
  | PyBool b => b
  | PyStr s => negb (String.eqb s "")
  end.

(** Python's [bool(l)] for a list. *)
Definition list_truthy {A : Type} (l : list A) : bool :=
  match l with
  | [] => false
  | _ :: _ => true
  end.

(** Python's [sep.join(parts)]. *)
Fixpoint join (sep : string) (parts : list string) : string :=
  match parts with
  | [] => ""
  | [p] => p
  | p :: rest => p +:+ sep +:+ join sep rest
  end.

Definition newline : string := String (Ascii.ascii_of_nat 10) "".

(** ** Data model *)

(** [langchain.schema.Document]: [metadata] defaults to the empty dict. *)
Record Document : Type := mkDocument {
  page_content : string;
  metadata : list (string * string)
}.

(** state.py, [GraphState].  A [TypedDict] is a dict at run time: a key may
    be absent (web_search.py reads [documents] with [state.get]).  The same
    type describes the partial dicts the nodes return. *)
Module GraphState.
Record t : Type := mk {
  question : option string;
  generation : option string;
  web_search : option bool;
  documents : option (list Document)
}.

Definition empty : t := mk None None None None.

(** The graph merges what a node returns into the state: a returned key
    overwrites, an absent key leaves the field as it was. *)
Definition update (state upd : t) : t :=
  mk (from_option Some (question state) (question upd))
     (from_option Some (generation state) (generation upd))
     (from_option Some (web_search state) (web_search upd))
     (from_option Some (documents state) (documents upd)).
End GraphState.

(** ** Effects: a logical clock for the external calls, and exceptions *)

Inductive exn : Type :=
  | KeyError (key : string)
  | GraphRecursionError.

(** Both outcomes carry the time reached, that is, the number of service
    calls made so far: an exception does not undo the calls made before
    it. *)
Inductive outcome (A : Type) : Type :=
  | Ok (a : A) (now : nat)
  | Raise (e : exn) (now : nat).
Arguments Ok {A} a now.
Arguments Raise {A} e now.

Definition M (A : Type) : Type := nat -> outcome A.

Definition ret {A : Type} (a : A) : M A := fun now => Ok a now.

Definition raise {A : Type} (e : exn) : M A := fun now => Raise e now.

Definition bind {A B : Type} (m : M A) (k : A -> M B) : M B :=
  fun now =>
    match m now with
    | Ok a now' => k a now'
    | Raise e now' => Raise e now'
    end.

Notation "'let*' x := m 'in' k" := (bind m (fun x => k))
  (at level 10, x name, m at level 100, k at level 200).

(** One request to an external service: answered at the current time, after
    which the clock advances. *)
Definition invoke {I O : Type} (service : nat -> I -> O) (input : I) : M O :=
  fun now => Ok (service now input) (S now).

(** [d[key]] on a dict field that may be absent. *)
Definition getitem {A : Type} (key : string) (field : option A) : M A :=
  match field with
  | Some a => ret a
  | None => raise (KeyError key)
  end.

(** ** External services *)

Record SearchRequest : Type := mkSearchRequest {
  query : string;
  req_max_results : nat
}.

Record TavilyResult : Type := mkTavilyResult {
  content : string;
  url : string
}.

Record TavilySearch : Type := mkTavilySearch {
  max_results : nat
}.

(** models/model.py, [llm_model]. *)
Record ChatModel : Type := mkChatModel {
  model : string;
  temperature : nat
}.

Definition llm_model : ChatModel := mkChatModel "gemini-2.5-flash" 0.

Record Services : Type := mkServices {
  (** data.ingestion.retriever *)
  retriever : nat -> string -> list Document;
  (** the Tavily service behind [web_search_tool]; the answer's ["results"] *)
  tavily : nat -> SearchRequest -> list TavilyResult;
  (** workflow.chains.generation.generation_chain: context, question *)
  generation_chain : nat -> list Document * string -> string;
  (** retrieval_grader: document text, question; the [binary_score] *)
  retrieval_grader : nat -> string * string -> string;
  (** hallucination_grader: documents, generation; the [binary_score] *)
  hallucination_grader : nat -> list Document * string -> pyval;
  (** answer_grader: question, generation; the [binary_score] *)
  answer_grader : nat -> string * string -> pyval;
  (** question_router: question; the [datasource] *)
  question_router : nat -> string -> string
}.

(** ** Node names *)

(** Modelled from the spec: workflow/consts.py is not among the sources.
    The spec names the states RETRIEVE, GRADE_DOCUMENTS, GENERATE and
    WEBSEARCH, and the router label that selects web search is
    ["websearch"]. *)
Definition RETRIEVE : string := "retrieve".
Definition GRADE_DOCUMENTS : string := "grade_documents".
Definition GENERATE : string := "generate".
Definition WEBSEARCH : string := "websearch".

(** [langgraph.graph.END]. *)
Definition END : string := "__end__".

(** ** What grade_documents keeps, and the flag it sets *)

(** Modelled from the spec: part of the grade_documents node, which is not
    among the sources.  The relevance grader's verdict on one document:
    relevant when the [binary_score] is ["yes"]. *)
Definition graded_relevant (score : string) : bool := String.eqb score "yes".

(** Modelled from the spec: part of the grade_documents node.  It retains
    only the documents graded relevant; they keep their order. *)
Definition retained (graded : list (Document * bool)) : list Document :=
  map fst (filter (fun dv => snd dv = true) graded).

(** Modelled from the spec: part of the grade_documents node.  The policy
    of spec 4.5 is "filter, and if anything was dropped, flag for
    supplementation": the flag is true if any document is graded
    not-relevant. *)
Definition flag_of (graded : list (Document * bool)) : bool :=
  existsb (fun dv => negb (snd dv)) graded.

(** The other wording of spec 4.5, "true if zero documents remain relevant
    (or if any is graded not-relevant)", read as a disjunction.  It is
    compared with [flag_of] in [flag_wordings_agree]. *)
Definition flag_if_none_or_dropped (graded : list (Document * bool)) : bool :=
  negb (list_truthy (retained graded)) || existsb (fun dv => negb (snd dv)) graded.

(** ** The nodes and the branch functions *)

Section Workflow.

Variable env : Services.

(** web_search.py: [web_search_tool = TavilySearch(max_results=3)]. *)
Definition web_search_tool : TavilySearch := mkTavilySearch 3.

(** [web_search_tool.invoke({"query": q})["results"]]: the tool sends the
    query together with its configured result cap.  This describes the
    replies that carry a ["results"] list; when the tool answers with an
    error message instead, the subscript raises and the node returns
    nothing, which is not described here. *)
Definition web_search_tool_invoke (q : string) : M (list TavilyResult) :=
  invoke (tavily env) (mkSearchRequest q (max_results web_search_tool)).

(** nodes/retrieve.py *)
Definition retrieve (state : GraphState.t) : M GraphState.t :=
  let* question := getitem "question" (GraphState.question state) in
  let* documents := invoke (retriever env) question in
  ret (GraphState.mk (Some question) None None (Some documents)).

(** nodes/web_search.py.  [documents.append] mutates the list held by the
    state and the same list is returned, so the state sees one list with
    the new document at its end; the functional append gives that list. *)
Definition web_search (state : GraphState.t) : M GraphState.t :=
  let* question := getitem "question" (GraphState.question state) in
  let documents := default [] (GraphState.documents state) in
  let* tavily_results := web_search_tool_invoke question in
  let joined_tavily_result := join newline (map content tavily_results) in
  let web_results := mkDocument joined_tavily_result [] in
  let documents :=
    if list_truthy documents then documents ++ [web_results]
    else [web_results] in
  ret (GraphState.mk (Some question) None None (Some documents)).

(** nodes/generate.py *)
Definition generate (state : GraphState.t) : M GraphState.t :=
  let* question := getitem "question" (GraphState.question state) in
  let* documents := getitem "documents" (GraphState.documents state) in
  let* generation := invoke (generation_chain env) (documents, question) in
  ret (GraphState.mk (Some question) (Some generation) None (Some documents)).

(** Modelled from the spec: the loop of the grade_documents node.  It
    iterates the evidence set and applies the relevance grader to each
    document, one call at a time; the result pairs each document with its
    verdict. *)
Fixpoint grade_each (question : string) (documents : list Document)
  : M (list (Document * bool)) :=
  match documents with
  | [] => ret []
  | d :: rest =>
      let* score := invoke (retrieval_grader env) (page_content d, question) in
      let* graded := grade_each question rest in
      ret ((d, graded_relevant score) :: graded)
  end.

(** Modelled from the spec: the grade_documents node
    (workflow/nodes/grade_documents.py is not among the sources).  Spec
    4.5: it iterates the evidence set, applies the relevance grader to
    each document, retains only the documents graded relevant, and sets
    the web-search-needed flag when a document was dropped.  Output:
    filtered evidence set and flag.  As retrieve, generate and web_search
    do (whose contracts in the spec likewise name only the new value), it
    returns the question it read along with its output. *)
Definition grade_documents (state : GraphState.t) : M GraphState.t :=
  let* question := getitem "question" (GraphState.question state) in
  let* documents := getitem "documents" (GraphState.documents state) in
  let* graded := grade_each question documents in
  let filtered_docs := retained graded in
  let web_search := flag_of graded in
  ret (GraphState.mk (Some question) None (Some web_search) (Some filtered_docs)).

(** graph.py, [decide_to_generate] *)
Definition decide_to_generate (state : GraphState.t) : M string :=
  let* web_search := getitem "web_search" (GraphState.web_search state) in
  ret (if web_search then WEBSEARCH else GENERATE).

(** graph.py, [grade_generation_grounded_in_documents_and_question] *)
Definition grade_generation_grounded_in_documents_and_question
    (state : GraphState.t) : M string :=
  let* question := getitem "question" (GraphState.question state) in
  let* documents := getitem "documents" (GraphState.documents state) in
  let* generation := getitem "generation" (GraphState.generation state) in
  let* score := invoke (hallucination_grader env) (documents, generation) in
  if truthy score then
    let* score := invoke (answer_grader env) (question, generation) in
    ret (if truthy score then "useful" else "not useful")
  else
    ret "not supported".

(** graph.py, [route_question] *)
Definition route_question (state : GraphState.t) : M string :=
  let* question := getitem "question" (GraphState.question state) in
  let* datasource := invoke (question_router env) question in
  ret (if String.eqb datasource WEBSEARCH then WEBSEARCH else RETRIEVE).

End Workflow.

(** ** The part of LangGraph's [StateGraph] that graph.py uses *)

Module StateGraph.

(** A conditional edge: the branch function and its string-keyed table
    from the function's results to node names. *)
Record branch : Type := mkBranch {
  path : GraphState.t -> M string;
  path_map : gmap string string
}.

Record t : Type := mk {
  nodes : gmap string (GraphState.t -> M GraphState.t);
  edges : gmap string string;
  branches : gmap string branch;
  entry : option branch
}.

Definition new : t := mk ∅ ∅ ∅ None.

Definition add_node (name : string) (action : GraphState.t -> M GraphState.t)
    (g : t) : t :=
  mk (<[name := action]> (nodes g)) (edges g) (branches g) (entry g).

Definition add_edge (source target : string) (g : t) : t :=
  mk (nodes g) (<[source := target]> (edges g)) (branches g) (entry g).

Definition add_conditional_edges (source : string)
    (path : GraphState.t -> M string) (path_map : gmap string string)
    (g : t) : t :=
  mk (nodes g) (edges g) (<[source := mkBranch path path_map]> (branches g))
     (entry g).

Definition set_conditional_entry_point (path : GraphState.t -> M string)
    (path_map : gmap string string) (g : t) : t :=
  mk (nodes g) (edges g) (branches g) (Some (mkBranch path path_map)).

(** A branch is taken by running its function on the state and looking
    the result up in its table. *)
Definition take (b : branch) (state : GraphState.t) : M string :=
  let* result := path b state in
  getitem result (path_map b !! result).

(** The node that follows [cur]: its plain edge if it has one, else its
    conditional edge; a node without outgoing edge ends the run. *)
Definition next_node (g : t) (cur : string) (state : GraphState.t) : M string :=
  match edges g !! cur with
  | Some target => ret target
  | None =>
      match branches g !! cur with
      | Some b => take b state
      | None => ret END
      end
  end.

(** A configuration: the node to run next (or [END]) and the state. *)
Definition config : Type := string * GraphState.t.

(** The entry decision on the input state. *)
Definition start (g : t) (input : GraphState.t) : M config :=
  let* b := getitem "__start__" (entry g) in
  let* first := take b input in
  ret (first, input).

(** One step: run the current node, merge what it returns into the state,
    then decide the next node on the merged state. *)
Definition step (g : t) (cfg : config) : M config :=
  let (cur, state) := cfg in
  let* action := getitem cur (nodes g !! cur) in
  let* upd := action state in
  let state' := GraphState.update state upd in
  let* next := next_node g cur state' in
  ret (next, state').

(** [n] steps, stopping at [END]. *)
Fixpoint steps (g : t) (n : nat) (cfg : config) : M config :=
  match n with
  | 0 => ret cfg
  | S n' =>
      if String.eqb (fst cfg) END then ret cfg
      else let* cfg' := step g cfg in steps g n' cfg'
  end.

(** The entry decision followed by [fuel] steps of the graph, without the
    engine's limit. *)
Definition run (g : t) (fuel : nat) (input : GraphState.t) : M config :=
  let* cfg := start g input in
  steps g fuel cfg.

(** LangGraph's default [recursion_limit]. *)
Definition default_recursion_limit : nat := 25.

(** The compiled graph observed after [n] steps.  The engine counts the
    steps of a run: one that has not reached [END] when [limit] steps are
    done is stopped with [GraphRecursionError]. *)
Fixpoint app_steps (g : t) (limit n : nat) (cfg : config) {struct n}
  : M config :=
  match n with
  | 0 => ret cfg
  | S n' =>
      if String.eqb (fst cfg) END then ret cfg
      else
        match limit with
        | 0 => raise GraphRecursionError
        | S limit' =>
            let* cfg' := step g cfg in
            app_steps g limit' n' cfg'
        end
  end.

(** [app.invoke(input)] of the compiled graph: the entry decision, then
    steps until [END] is reached or the limit stops the run. *)
Definition app_invoke (g : t) (limit : nat) (input : GraphState.t) : M config :=
  let* cfg := start g input in
  app_steps g limit (S limit) cfg.

End StateGraph.

(** ** graph.py: the workflow *)

Section Graph.

Variable env : Services.

Definition workflow : StateGraph.t :=
  let workflow := StateGraph.new in
  let workflow := StateGraph.add_node RETRIEVE (retrieve env) workflow in
  let workflow := StateGraph.add_node GRADE_DOCUMENTS (grade_documents env) workflow in
  let workflow := StateGraph.add_node GENERATE (generate env) workflow in
  let workflow := StateGraph.add_node WEBSEARCH (web_search env) workflow in
  let workflow :=
    StateGraph.set_conditional_entry_point (route_question env)
      (<[WEBSEARCH := WEBSEARCH]> (<[RETRIEVE := RETRIEVE]> ∅)) workflow in
  let workflow := StateGraph.add_edge RETRIEVE GRADE_DOCUMENTS workflow in
  let workflow :=
    StateGraph.add_conditional_edges GRADE_DOCUMENTS decide_to_generate
      (<[WEBSEARCH := WEBSEARCH]> (<[GENERATE := GENERATE]> ∅)) workflow in
  let workflow :=
    StateGraph.add_conditional_edges GENERATE
      (grade_generation_grounded_in_documents_and_question env)
      (<["not supported" := GENERATE]>
         (<["useful" := END]> (<["not useful" := WEBSEARCH]> ∅))) workflow in
  let workflow := StateGraph.add_edge WEBSEARCH GENERATE workflow in
  workflow.

(** [app = workflow.compile()], invoked with the default configuration. *)
Definition app (input : GraphState.t) : M StateGraph.config :=
  StateGraph.app_invoke workflow StateGraph.default_recursion_limit input.

End Graph.

(** ** Notions used in the statements *)

Section Derived.

Variable env : Services.

(** The document web_search builds at time [now] for question [q]. *)
Definition web_results_at (now : nat) (q : string) : Document :=
  mkDocument
    (join newline
       (map content (tavily env now (mkSearchRequest q 3))))
    [].


End Derived.

(** The three-way outcome of the combined grading, from the two
    [binary_score] values. *)
Definition outcome_of (hallucination answer : pyval) : string :=
  if truthy hallucination then
    if truthy answer then "useful" else "not useful"
  else "not supported".

(** The node the GENERATE branch table gives for an outcome. *)
Definition target_of (result : string) : string :=
  if String.eqb result "not supported" then GENERATE
  else if String.eqb result "useful" then END
  else WEBSEARCH.

(** The nodes a run can be at once it has left the entry decision and
    the grading of the retrieved documents. *)
Definition past_grading (node : string) : Prop :=
  node = GENERATE \/ node = WEBSEARCH \/ node = END.

(** ** A sample environment *)

Definition doc_agents : Document :=
  mkDocument "An agent combines planning, memory and tool use." [].

Definition doc_pasta : Document :=
  mkDocument "Boil the pasta for nine minutes." [].

(** The retriever returns the two sample documents, the relevance grader
    rejects the one about pasta, the search returns two snippets; the
    router's label and the two generation verdicts are given. *)
Definition sample_env (datasource : string) (hallucination answer : pyval)
  : Services :=
  mkServices
    (fun _ _ => [doc_agents; doc_pasta])
    (fun _ _ => [mkTavilyResult "first snippet" "https://a.example";
                 mkTavilyResult "second snippet" "https://b.example"])
    (fun _ _ => "An agent plans, remembers and uses tools.")
    (fun _ dq => if String.eqb (fst dq) (page_content doc_pasta) then "no" else "yes")
    (fun _ _ => hallucination)
    (fun _ _ => answer)
    (fun _ _ => datasource).

Definition sample_input : GraphState.t :=
  GraphState.mk (Some "What is an agent?") None None None.


(** * Properties *)

(** ** The nodes *)

Section NodeFacts.

Variable env : Services.

Lemma list_truthy_app {A : Type} (l : list A) (x : A) :
  (if list_truthy l then l ++ [x] else [x]) = l ++ [x].
Proof. destruct l; reflexivity. Qed.

Lemma retrieve_eq state q now :
  GraphState.question state = Some q ->
  retrieve env state now
  = Ok (GraphState.mk (Some q) None None (Some (retriever env now q))) (S now).
Proof. intros Hq. unfold retrieve. rewrite Hq. reflexivity. Qed.

Lemma web_search_eq state q now :
  GraphState.question state = Some q ->
  web_search env state now
  = Ok (GraphState.mk (Some q) None None
          (Some (default [] (GraphState.documents state)
                 ++ [web_results_at env now q]))) (S now).
Proof.
  intros Hq. unfold web_search. rewrite Hq.
  unfold bind, getitem, ret, web_search_tool_invoke, invoke. simpl.
  rewrite list_truthy_app. reflexivity.
Qed.

Lemma generate_eq state q ds now :
  GraphState.question state = Some q ->
  GraphState.documents state = Some ds ->
  generate env state now
  = Ok (GraphState.mk (Some q) (Some (generation_chain env now (ds, q))) None
          (Some ds)) (S now).
Proof. intros Hq Hd. unfold generate. rewrite Hq, Hd. reflexivity. Qed.




End NodeFacts.

(** ** The branch functions *)

Section BranchFacts.

Variable env : Services.

Lemma route_question_eq state q now :
  GraphState.question state = Some q ->
  route_question env state now
  = Ok (if String.eqb (question_router env now q) WEBSEARCH
        then WEBSEARCH else RETRIEVE) (S now).
Proof. intros Hq. unfold route_question. rewrite Hq. reflexivity. Qed.

Lemma decide_to_generate_eq state flag now :
  GraphState.web_search state = Some flag ->
  decide_to_generate state now = Ok (if flag then WEBSEARCH else GENERATE) now.
Proof. intros Hf. unfold decide_to_generate. rewrite Hf. reflexivity. Qed.

Lemma grade_generation_eq state q ds g now :
  GraphState.question state = Some q ->
  GraphState.documents state = Some ds ->
  GraphState.generation state = Some g ->
  grade_generation_grounded_in_documents_and_question env state now
  = if truthy (hallucination_grader env now (ds, g))
    then Ok (if truthy (answer_grader env (S now) (q, g))
             then "useful" else "not useful") (S (S now))
    else Ok "not supported" (S now).
Proof.
  intros Hq Hd Hg.
  unfold grade_generation_grounded_in_documents_and_question.
  rewrite Hq, Hd, Hg. unfold bind, getitem, ret, invoke.
  destruct (truthy (hallucination_grader env now (ds, g))); reflexivity.
Qed.

End BranchFacts.

(** ** The graph *)

Section GraphFacts.

Variable env : Services.

Lemma workflow_entry :
  StateGraph.entry (workflow env)
  = Some (StateGraph.mkBranch (route_question env)
            (<[WEBSEARCH := WEBSEARCH]> (<[RETRIEVE := RETRIEVE]> ∅))).
Proof. reflexivity. Qed.

Lemma start_eq input q now :
  GraphState.question input = Some q ->
  StateGraph.start (workflow env) input now
  = Ok (if String.eqb (question_router env now q) WEBSEARCH
        then WEBSEARCH else RETRIEVE, input) (S now).
Proof.
  intros Hq. unfold StateGraph.start. rewrite workflow_entry.
  unfold bind at 1. unfold getitem at 1. unfold ret at 1.
  unfold StateGraph.take, bind. simpl StateGraph.path.
  rewrite (route_question_eq _ _ q) by exact Hq.
  destruct (String.eqb (question_router env now q) WEBSEARCH); reflexivity.
Qed.

Lemma step_retrieve state q now :
  GraphState.question state = Some q ->
  StateGraph.step (workflow env) (RETRIEVE, state) now
  = Ok (GRADE_DOCUMENTS,
        GraphState.update state
          (GraphState.mk (Some q) None None (Some (retriever env now q))))
       (S now).
Proof.
  intros Hq. unfold StateGraph.step, bind.
  change (StateGraph.nodes (workflow env) !! RETRIEVE) with (Some (retrieve env)).
  unfold getitem at 1. unfold ret at 1.
  rewrite (retrieve_eq _ _ q) by exact Hq. reflexivity.
Qed.

Lemma step_web_search state q now :
  GraphState.question state = Some q ->
  StateGraph.step (workflow env) (WEBSEARCH, state) now
  = Ok (GENERATE,
        GraphState.update state
          (GraphState.mk (Some q) None None
             (Some (default [] (GraphState.documents state)
                    ++ [web_results_at env now q]))))
       (S now).
Proof.
  intros Hq. unfold StateGraph.step, bind.
  change (StateGraph.nodes (workflow env) !! WEBSEARCH) with (Some (web_search env)).
  unfold getitem at 1. unfold ret at 1.
  rewrite (web_search_eq _ _ q) by exact Hq. reflexivity.
Qed.


Lemma step_generate state q ds now :
  GraphState.question state = Some q ->
  GraphState.documents state = Some ds ->
  let g := generation_chain env now (ds, q) in
  let h := hallucination_grader env (S now) (ds, g) in
  let a := answer_grader env (S (S now)) (q, g) in
  StateGraph.step (workflow env) (GENERATE, state) now
  = Ok (target_of (outcome_of h a),
        GraphState.update state
          (GraphState.mk (Some q) (Some g) None (Some ds)))
       (if truthy h then S (S (S now)) else S (S now)).
Proof.
  intros Hq Hd g h a. unfold StateGraph.step, bind.
  change (StateGraph.nodes (workflow env) !! GENERATE) with (Some (generate env)).
  unfold getitem at 1. unfold ret at 1.
  rewrite (generate_eq _ _ q ds) by assumption.
  unfold StateGraph.next_node.
  change (StateGraph.edges (workflow env) !! GENERATE) with (@None string).
  change (StateGraph.branches (workflow env) !! GENERATE)
    with (Some (StateGraph.mkBranch
                  (grade_generation_grounded_in_documents_and_question env)
                  (<["not supported" := GENERATE]>
                     (<["useful" := END]> (<["not useful" := WEBSEARCH]> ∅))))).
  unfold StateGraph.take, bind. simpl StateGraph.path.
  rewrite (grade_generation_eq _ _ q ds g) by reflexivity.
  fold g h a. unfold outcome_of.
  destruct (truthy h); [destruct (truthy a)|]; reflexivity.
Qed.

End GraphFacts.

(** ** Inversion of the monadic operations *)

Lemma bind_Ok {A B : Type} (m : M A) (k : A -> M B) now b now' :
  bind m k now = Ok b now' ->
  exists a mid, m now = Ok a mid /\ k a mid = Ok b now'.
Proof.
  unfold bind. destruct (m now) as [a mid|e]; [|discriminate].
  intros H. exists a, mid. split; [reflexivity|exact H].
Qed.


Lemma ret_Ok {A : Type} (x : A) now a now' :
  ret x now = Ok a now' -> a = x /\ now' = now.
Proof. unfold ret. intros H. injection H as -> ->. split; reflexivity. Qed.

(** ** Entry decision and RETRIEVE *)

(** C4: at graph entry the orchestrator goes to WEBSEARCH exactly when the
    router's datasource is "websearch" and to RETRIEVE otherwise; RETRIEVE
    has the plain edge to GRADE_DOCUMENTS, so a RETRIEVE step always
    continues there. *)
Theorem entry_websearch_iff_router_says_websearch env input q now :
  GraphState.question input = Some q ->
  (exists first,
      StateGraph.start (workflow env) input now = Ok (first, input) (S now)
      /\ (first = WEBSEARCH <-> question_router env now q = "websearch")
      /\ (first = RETRIEVE <-> question_router env now q <> "websearch"))
  /\ StateGraph.edges (workflow env) !! RETRIEVE = Some GRADE_DOCUMENTS
  /\ (forall t, exists state',
        StateGraph.step (workflow env) (RETRIEVE, input) t
        = Ok (GRADE_DOCUMENTS, state') (S t)).
Proof.
  intros Hq. split; [|split].
  - rewrite (start_eq env input q now Hq).
    destruct (String.eqb_spec (question_router env now q) WEBSEARCH) as [Heq|Hne].
    + exists WEBSEARCH. split; [reflexivity|]. split.
      * split; intros _; [exact Heq|reflexivity].
      * split; [discriminate|]. intros Hn. contradiction.
    + exists RETRIEVE. split; [reflexivity|]. split.
      * split; [discriminate|]. intros Hn. contradiction.
      * split; intros _; [exact Hne|reflexivity].
  - reflexivity.
  - intros t. eexists. apply step_retrieve. exact Hq.
Qed.

Lemma entry_websearch_iff_router_says_websearch_witness :
  (exists first,
      StateGraph.start (workflow (sample_env "websearch" (PyStr "yes") (PyStr "yes")))
        sample_input 0 = Ok (first, sample_input) 1
      /\ (first = WEBSEARCH <-> "websearch" = "websearch")
      /\ (first = RETRIEVE <-> "websearch" <> "websearch"))
  /\ StateGraph.edges (workflow (sample_env "websearch" (PyStr "yes") (PyStr "yes")))
       !! RETRIEVE = Some GRADE_DOCUMENTS
  /\ (forall t, exists state',
        StateGraph.step (workflow (sample_env "websearch" (PyStr "yes") (PyStr "yes")))
          (RETRIEVE, sample_input) t
        = Ok (GRADE_DOCUMENTS, state') (S t)).
Proof.
  apply (entry_websearch_iff_router_says_websearch
           (sample_env "websearch" (PyStr "yes") (PyStr "yes"))
           sample_input "What is an agent?" 0).
  reflexivity.
Defined.

(** C10: whatever the router's datasource is, as long as it is not the
    string "websearch", route_question returns RETRIEVE and the entry
    decision goes to RETRIEVE; no value of the datasource makes the entry
    decision fail. *)
Theorem route_question_other_datasource_is_retrieve env state q now :
  GraphState.question state = Some q ->
  question_router env now q <> "websearch" ->
  route_question env state now = Ok RETRIEVE (S now)
  /\ StateGraph.start (workflow env) state now = Ok (RETRIEVE, state) (S now).
Proof.
  intros Hq Hne.
  rewrite (route_question_eq env state q now Hq), (start_eq env state q now Hq).
  destruct (String.eqb_spec (question_router env now q) WEBSEARCH) as [Heq|_].
  - contradiction.
  - split; reflexivity.
Qed.

Lemma route_question_other_datasource_is_retrieve_witness :
  route_question (sample_env "Web Search!" (PyStr "yes") (PyStr "yes"))
    sample_input 0 = Ok RETRIEVE 1
  /\ StateGraph.start (workflow (sample_env "Web Search!" (PyStr "yes") (PyStr "yes")))
       sample_input 0 = Ok (RETRIEVE, sample_input) 1.
Proof.
  apply (route_question_other_datasource_is_retrieve
           (sample_env "Web Search!" (PyStr "yes") (PyStr "yes"))
           sample_input "What is an agent?" 0).
  - reflexivity.
  - simpl. discriminate.
Defined.

(** route_question never raises on a state that has its question, and its
    result is always a key of the entry table. *)
Lemma route_question_total env state q now :
  GraphState.question state = Some q ->
  exists first,
    StateGraph.start (workflow env) state now = Ok (first, state) (S now)
    /\ (first = WEBSEARCH \/ first = RETRIEVE).
Proof.
  intros Hq. rewrite (start_eq env state q now Hq).
  destruct (String.eqb (question_router env now q) WEBSEARCH);
    eexists; split; eauto.
Qed.

(** ** The web_search node *)

Example join_three : join newline ["a"; "b"; "c"] = "a" +:+ newline +:+ "b" +:+ newline +:+ "c".
Proof. reflexivity. Qed.

Example join_one : join newline ["a"] = "a".
Proof. reflexivity. Qed.

Example join_none : join newline [] = "".
Proof. reflexivity. Qed.

(** C5: one call of web_search returns the prior evidence set (the empty
    one when the state has none) with exactly one document appended; the
    length grows by one and the prior documents stay in place. *)
Theorem web_search_appends_exactly_one env state q now :
  GraphState.question state = Some q ->
  exists upd doc,
    web_search env state now = Ok upd (S now)
    /\ GraphState.documents upd
       = Some (default [] (GraphState.documents state) ++ [doc])
    /\ GraphState.documents (GraphState.update state upd)
       = Some (default [] (GraphState.documents state) ++ [doc])
    /\ length (default [] (GraphState.documents state) ++ [doc])
       = length (default [] (GraphState.documents state)) + 1.
Proof.
  intros Hq. eexists. exists (web_results_at env now q).
  split; [apply web_search_eq; exact Hq|].
  split; [reflexivity|]. split; [reflexivity|].
  rewrite length_app. reflexivity.
Qed.

Lemma web_search_appends_exactly_one_witness :
  exists upd doc,
    web_search (sample_env "websearch" (PyStr "yes") (PyStr "yes"))
      (GraphState.mk (Some "q") None None (Some [doc_agents; doc_pasta])) 0
    = Ok upd 1
    /\ GraphState.documents upd = Some ([doc_agents; doc_pasta] ++ [doc])
    /\ GraphState.documents
         (GraphState.update
            (GraphState.mk (Some "q") None None (Some [doc_agents; doc_pasta])) upd)
       = Some ([doc_agents; doc_pasta] ++ [doc])
    /\ length ([doc_agents; doc_pasta] ++ [doc]) = 2 + 1.
Proof.
  apply (web_search_appends_exactly_one
           (sample_env "websearch" (PyStr "yes") (PyStr "yes"))
           (GraphState.mk (Some "q") None None (Some [doc_agents; doc_pasta]))
           "q" 0).
  reflexivity.
Defined.

(** The separator is the single character with code 10. *)
Example newline_is_line_feed :
  newline = String "010"%char "" /\ Ascii.nat_of_ascii "010"%char = 10
  /\ String.length newline = 1.
Proof. repeat split. Qed.

Lemma string_length_app (s1 s2 : string) :
  String.length (s1 +:+ s2) = String.length s1 + String.length s2.
Proof. induction s1 as [|c s1 IH]; simpl; [reflexivity|]. rewrite IH. reflexivity. Qed.

(** The length of a join: every part, and one separator between each two
    neighbours. *)
Lemma join_length (sep : string) (parts : list string) :
  parts <> [] ->
  String.length (join sep parts) + String.length sep
  = sum_list (map (fun p => String.length p + String.length sep) parts).
Proof.
  induction parts as [|p rest IH]; [congruence|]. intros _.
  destruct rest as [|p' rest].
  - simpl. lia.
  - change (join sep (p :: p' :: rest)) with (p +:+ sep +:+ join sep (p' :: rest)).
    rewrite !string_length_app.
    change (sum_list (map (fun p0 => String.length p0 + String.length sep)
                        (p :: p' :: rest)))
      with (String.length p + String.length sep
            + sum_list (map (fun p0 => String.length p0 + String.length sep)
                          (p' :: rest))).
    rewrite <- IH by discriminate. lia.
Qed.

(** C6: web_search asks the search tool once, with the question and the
    result cap 3, and adds exactly one document.  Its page content is the
    contents of the returned results with one line feed (character 10)
    between each two neighbours and none at the ends: spelled out for one,
    two and three results, and, for any number of results, of length the
    contents' lengths plus one less than the number of results. *)
Theorem web_search_builds_one_joined_document env state q now :
  GraphState.question state = Some q ->
  max_results web_search_tool = 3
  /\ web_search_tool_invoke env q now
     = Ok (tavily env now (mkSearchRequest q 3)) (S now)
  /\ exists upd doc,
       web_search env state now = Ok upd (S now)
       /\ GraphState.documents upd
          = Some (default [] (GraphState.documents state) ++ [doc])
       /\ metadata doc = []
       /\ page_content doc
          = join (String "010"%char "")
              (map content (tavily env now (mkSearchRequest q 3)))
       /\ (forall r1,
              tavily env now (mkSearchRequest q 3) = [r1] ->
              page_content doc = content r1)
       /\ (forall r1 r2,
              tavily env now (mkSearchRequest q 3) = [r1; r2] ->
              page_content doc = content r1 +:+ String "010"%char "" +:+ content r2)
       /\ (forall r1 r2 r3,
              tavily env now (mkSearchRequest q 3) = [r1; r2; r3] ->
              page_content doc
              = content r1 +:+ String "010"%char "" +:+ content r2
                +:+ String "010"%char "" +:+ content r3)
       /\ (tavily env now (mkSearchRequest q 3) <> [] ->
           String.length (page_content doc) + 1
           = sum_list (map (fun r => String.length (content r) + 1)
                         (tavily env now (mkSearchRequest q 3)))).
Proof.
  intros Hq. split; [reflexivity|]. split; [reflexivity|].
  eexists. exists (web_results_at env now q).
  split; [apply web_search_eq; exact Hq|].
  split; [reflexivity|]. split; [reflexivity|]. split; [reflexivity|].
  unfold web_results_at. cbn [page_content].
  split; [intros r1 ->; reflexivity|].
  split; [intros r1 r2 ->; reflexivity|].
  split; [intros r1 r2 r3 ->; reflexivity|].
  intros Hne.
  pose proof (join_length newline
                (map content (tavily env now (mkSearchRequest q 3)))) as Hlen.
  rewrite map_map in Hlen. apply Hlen.
  destruct (tavily env now (mkSearchRequest q 3)); [congruence|discriminate].
Qed.

Lemma web_search_builds_one_joined_document_witness :
  max_results web_search_tool = 3
  /\ web_search_tool_invoke (sample_env "websearch" (PyStr "yes") (PyStr "yes"))
       "What is an agent?" 0
     = Ok [mkTavilyResult "first snippet" "https://a.example";
           mkTavilyResult "second snippet" "https://b.example"] 1
  /\ exists upd doc,
       web_search (sample_env "websearch" (PyStr "yes") (PyStr "yes"))
         sample_input 0 = Ok upd 1
       /\ GraphState.documents upd = Some ([] ++ [doc])
       /\ page_content doc
          = "first snippet" +:+ String "010"%char "" +:+ "second snippet"
       /\ String.length (page_content doc) = 13 + 1 + 14.
Proof.
  destruct (web_search_builds_one_joined_document
              (sample_env "websearch" (PyStr "yes") (PyStr "yes"))
              sample_input "What is an agent?" 0 eq_refl)
    as (Hmax & Hcall & upd & doc & Hrun & Hdocs & _ & _ & _ & Htwo & _ & Hlen).
  split; [exact Hmax|]. split; [exact Hcall|].
  exists upd, doc. split; [exact Hrun|]. split; [exact Hdocs|].
  split.
  - exact (Htwo (mkTavilyResult "first snippet" "https://a.example")
                (mkTavilyResult "second snippet" "https://b.example") eq_refl).
  - assert (H : String.length (page_content doc) + 1 = 14 + 15).
    { apply Hlen. discriminate. }
    lia.
Defined.

(** ** The question is never changed *)

Section QuestionFrame.

Variable env : Services.











End QuestionFrame.


(** A traversal RETRIEVE, GRADE_DOCUMENTS, WEBSEARCH, GENERATE, END of the
    sample environment. *)
Example sample_run_vectorstore :
  exists state now',
    StateGraph.run (workflow (sample_env "vectorstore" (PyBool true) (PyBool true)))
      5 sample_input 0 = Ok (END, state) now'
    /\ GraphState.question state = Some "What is an agent?"
    /\ length (default [] (GraphState.documents state)) = 2.
Proof. eexists _, _. vm_compute. repeat split. Qed.


(** ** The grade_documents node and the branch after it *)

Section GradeDocuments.




Lemma none_retained_iff (graded : list (Document * bool)) :
  negb (list_truthy (retained graded)) = true <-> retained graded = [].
Proof. destruct (retained graded); simpl; split; congruence. Qed.


Lemma retained_cons d (b : bool) (graded : list (Document * bool)) :
  retained ((d, b) :: graded)
  = if b then d :: retained graded else retained graded.
Proof. destruct b; reflexivity. Qed.



(** The two wordings of spec 4.5 give the same flag on every non-empty
    evidence set. *)
Lemma flag_wordings_agree (graded : list (Document * bool)) :
  graded <> [] -> flag_if_none_or_dropped graded = flag_of graded.
Proof.
  unfold flag_if_none_or_dropped, flag_of.
  destruct graded as [|[d b] rest]; [congruence|]. intros _.
  rewrite retained_cons. destruct b; simpl; [reflexivity|apply orb_true_r].
Qed.


End GradeDocuments.



(** On the empty evidence set nothing is graded and nothing is dropped:
    the flag is not set and the run continues at GENERATE. *)
Example grade_documents_on_empty_set :
  grade_documents (sample_env "vectorstore" (PyStr "yes") (PyStr "yes"))
    (GraphState.mk (Some "q") None None (Some [])) 0
  = Ok (GraphState.mk (Some "q") None (Some false) (Some [])) 0.
Proof. reflexivity. Qed.

(** ** The combined grading of a generation *)

(** With boolean verdicts the three outcomes follow the two graders. *)
Lemma outcome_of_bool (h a : bool) :
  (outcome_of (PyBool h) (PyBool a) = "not supported" <-> h = false)
  /\ (outcome_of (PyBool h) (PyBool a) = "useful" <-> h = true /\ a = true)
  /\ (outcome_of (PyBool h) (PyBool a) = "not useful" <-> h = true /\ a = false).
Proof.
  destruct h, a; unfold outcome_of; simpl; (split; [|split]); split; intros H;
    first [reflexivity | discriminate H | (destruct H; discriminate)
          | (split; reflexivity)].
Qed.

(** With string verdicts every non-empty string counts as true, "no"
    included: the outcome is "useful" whatever the graders say. *)
Lemma outcome_of_nonempty_strings (h a : string) :
  h <> "" -> a <> "" -> outcome_of (PyStr h) (PyStr a) = "useful".
Proof.
  intros Hh Ha. unfold outcome_of, truthy.
  destruct (String.eqb_spec h ""); [contradiction|].
  destruct (String.eqb_spec a ""); [contradiction|]. reflexivity.
Qed.

(** C2, on the code: when the hallucination grader's [binary_score] is the
    string "no", the combined grading does not return "not supported": it
    consults the answer grader and returns "useful", and the GENERATE step
    ends the run; likewise an answer verdict "no" gives "useful", not
    "not useful". *)
Theorem grade_generation_verdict_no_gives_useful :
  grade_generation_grounded_in_documents_and_question
    (sample_env "vectorstore" (PyStr "no") (PyStr "yes"))
    (GraphState.mk (Some "q") (Some "g") None (Some [doc_agents])) 0
  = Ok "useful" 2
  /\ grade_generation_grounded_in_documents_and_question
       (sample_env "vectorstore" (PyStr "yes") (PyStr "no"))
       (GraphState.mk (Some "q") (Some "g") None (Some [doc_agents])) 0
     = Ok "useful" 2
  /\ (exists state' now',
         StateGraph.step (workflow (sample_env "vectorstore" (PyStr "no") (PyStr "yes")))
           (GENERATE, GraphState.mk (Some "q") None None (Some [doc_agents])) 0
         = Ok (END, state') now').
Proof.
  split; [reflexivity|]. split; [reflexivity|].
  eexists _, _. vm_compute. reflexivity.
Qed.

(** What the GENERATE branch table does with each outcome. *)
Lemma target_of_outcomes :
  target_of "not supported" = GENERATE
  /\ target_of "useful" = END
  /\ target_of "not useful" = WEBSEARCH.
Proof. repeat split. Qed.

(** ** Runs *)

Section Runs.

Variable env : Services.

Lemma steps_succ n node state now :
  node <> END ->
  StateGraph.steps (workflow env) (S n) (node, state) now
  = match StateGraph.step (workflow env) (node, state) now with
    | Ok cfg' t => StateGraph.steps (workflow env) n cfg' t
    | Raise e t => Raise e t
    end.
Proof.
  intros Hne. simpl StateGraph.steps.
  destruct (String.eqb_spec node END) as [Heq|_]; [contradiction|].
  reflexivity.
Qed.

Lemma steps_end n state now :
  StateGraph.steps (workflow env) n (END, state) now = Ok (END, state) now.
Proof. destruct n; reflexivity. Qed.

Lemma step_generate_raises state now :
  GraphState.question state = None \/ GraphState.documents state = None ->
  exists e t, StateGraph.step (workflow env) (GENERATE, state) now = Raise e t.
Proof.
  intros H. unfold StateGraph.step, bind.
  change (StateGraph.nodes (workflow env) !! GENERATE) with (Some (generate env)).
  unfold getitem at 1. unfold ret at 1. unfold generate, bind.
  destruct (GraphState.question state) as [q|]; simpl.
  - destruct (GraphState.documents state) as [ds|]; simpl.
    + destruct H; discriminate.
    + eexists _, _. reflexivity.
  - eexists _, _. reflexivity.
Qed.

Lemma step_web_search_raises state now :
  GraphState.question state = None ->
  exists e t, StateGraph.step (workflow env) (WEBSEARCH, state) now = Raise e t.
Proof.
  intros H. unfold StateGraph.step, bind.
  change (StateGraph.nodes (workflow env) !! WEBSEARCH) with (Some (web_search env)).
  unfold getitem at 1. unfold ret at 1. unfold web_search, bind.
  rewrite H. simpl. eexists _, _. reflexivity.
Qed.

Lemma step_end_raises state now :
  exists e t, StateGraph.step (workflow env) (END, state) now = Raise e t.
Proof. eexists _, _. reflexivity. Qed.

Lemma target_of_past_grading result : past_grading (target_of result).
Proof.
  unfold past_grading, target_of.
  destruct (String.eqb result "not supported"); [tauto|].
  destruct (String.eqb result "useful"); tauto.
Qed.

(** One step from GENERATE or WEBSEARCH: the evidence set is kept, or
    gets one document at its end. *)
Lemma step_extends_documents cfg cfg' now now' :
  past_grading (fst cfg) ->
  StateGraph.step (workflow env) cfg now = Ok cfg' now' ->
  past_grading (fst cfg')
  /\ exists ext,
       GraphState.documents (snd cfg')
       = Some (default [] (GraphState.documents (snd cfg)) ++ ext)
       /\ length ext <= 1.
Proof.
  destruct cfg as [node state]. cbn [fst snd].
  intros [-> | [-> | ->]] Hstep.
  - destruct (GraphState.question state) as [q|] eqn:Hq.
    2:{ destruct (step_generate_raises state now (or_introl Hq)) as (e & t & He).
        congruence. }
    destruct (GraphState.documents state) as [ds|] eqn:Hd.
    2:{ destruct (step_generate_raises state now (or_intror Hd)) as (e & t & He).
        congruence. }
    rewrite (step_generate env state q ds now Hq Hd) in Hstep.
    injection Hstep as <- _. simpl. split; [apply target_of_past_grading|].
    exists []. rewrite app_nil_r. split; [reflexivity|simpl; lia].
  - destruct (GraphState.question state) as [q|] eqn:Hq.
    2:{ destruct (step_web_search_raises state now Hq) as (e & t & He). congruence. }
    rewrite (step_web_search env state q now Hq) in Hstep.
    injection Hstep as <- _. simpl. split; [left; reflexivity|].
    eexists. split; [reflexivity|simpl; lia].
  - destruct (step_end_raises state now) as (e & t & He). congruence.
Qed.

Lemma steps_extend_documents n cfg cfg' now now' :
  past_grading (fst cfg) ->
  StateGraph.steps (workflow env) n cfg now = Ok cfg' now' ->
  GraphState.documents (snd cfg') = GraphState.documents (snd cfg)
  \/ exists ext,
       GraphState.documents (snd cfg')
       = Some (default [] (GraphState.documents (snd cfg)) ++ ext).
Proof.
  revert cfg now. induction n as [|n IH]; intros cfg now Hpast Hrun.
  - apply ret_Ok in Hrun as [-> _]. left. reflexivity.
  - simpl in Hrun. destruct (String.eqb (fst cfg) END).
    + apply ret_Ok in Hrun as [-> _]. left. reflexivity.
    + apply bind_Ok in Hrun as (mid & t & Hstep & Hrun).
      destruct (step_extends_documents cfg mid now t Hpast Hstep)
        as (Hpast' & ext & Hdocs & _).
      right. destruct (IH mid t Hpast' Hrun) as [Hsame|[ext' Hext]].
      * exists ext. rewrite Hsame. exact Hdocs.
      * exists (ext ++ ext'). rewrite Hext, Hdocs. simpl.
        rewrite app_assoc. reflexivity.
Qed.

End Runs.

(** ** The evidence set along a traversal *)

(** C1, as amended: from the moment a traversal is at GENERATE or
    WEBSEARCH, no later step shortens the evidence set; generate keeps it
    and web_search appends one document, so the evidence set at any later
    point has the earlier one as a prefix. *)
Theorem evidence_set_only_extended_after_grading env n cfg cfg' now now' :
  fst cfg = GENERATE \/ fst cfg = WEBSEARCH ->
  StateGraph.steps (workflow env) n cfg now = Ok cfg' now' ->
  default [] (GraphState.documents (snd cfg))
    `prefix_of` default [] (GraphState.documents (snd cfg'))
  /\ length (default [] (GraphState.documents (snd cfg)))
     <= length (default [] (GraphState.documents (snd cfg'))).
Proof.
  intros Hnode Hrun.
  assert (Hpre : default [] (GraphState.documents (snd cfg))
                   `prefix_of` default [] (GraphState.documents (snd cfg'))).
  { destruct (steps_extend_documents env n cfg cfg' now now') as [Hsame|[ext Hext]].
    - unfold past_grading. tauto.
    - exact Hrun.
    - rewrite Hsame. reflexivity.
    - rewrite Hext. simpl. exists ext. reflexivity. }
  split; [exact Hpre|]. apply prefix_length. exact Hpre.
Qed.

Lemma evidence_set_only_extended_after_grading_witness :
  exists cfg' now',
    StateGraph.steps (workflow (sample_env "websearch" (PyBool true) (PyBool false)))
      4 (WEBSEARCH, GraphState.mk (Some "q") None None (Some [doc_agents])) 0
    = Ok cfg' now'
    /\ [doc_agents] `prefix_of` default [] (GraphState.documents (snd cfg'))
    /\ 1 <= length (default [] (GraphState.documents (snd cfg'))).
Proof.
  destruct (StateGraph.steps
              (workflow (sample_env "websearch" (PyBool true) (PyBool false)))
              4 (WEBSEARCH, GraphState.mk (Some "q") None None (Some [doc_agents])) 0)
    as [cfg' now'|e] eqn:Hrun.
  - exists cfg', now'. split; [reflexivity|].
    exact (evidence_set_only_extended_after_grading
             (sample_env "websearch" (PyBool true) (PyBool false)) 4
             (WEBSEARCH, GraphState.mk (Some "q") None None (Some [doc_agents]))
             cfg' 0 now' (or_intror eq_refl) Hrun).
  - vm_compute in Hrun. discriminate Hrun.
Defined.

(** The traversal of the witness: two web searches, three documents. *)
Example sample_run_not_useful :
  exists state now',
    StateGraph.steps (workflow (sample_env "websearch" (PyBool true) (PyBool false)))
      4 (WEBSEARCH, GraphState.mk (Some "q") None None (Some [doc_agents])) 0
    = Ok (WEBSEARCH, state) now'
    /\ length (default [] (GraphState.documents state)) = 3.
Proof. eexists _, _. vm_compute. split; reflexivity. Qed.

(** retrieve replaces whatever evidence the state holds. *)
Example retrieve_replaces_documents :
  exists upd,
    retrieve (sample_env "vectorstore" (PyBool true) (PyBool true))
      (GraphState.mk (Some "q") None None (Some [doc_pasta; doc_pasta; doc_pasta])) 0
    = Ok upd 1
    /\ GraphState.documents upd = Some [doc_agents; doc_pasta].
Proof. eexists. split; reflexivity. Qed.

(** C1, as stated, fails: in the traversal entry, RETRIEVE,
    GRADE_DOCUMENTS of the sample environment the evidence set has two
    documents after RETRIEVE and one after GRADE_DOCUMENTS. *)
Lemma evidence_set_shortened_by_grade_documents :
  ~ (forall env fuel input now cfg now1 cfg' now2 ds,
        StateGraph.run (workflow env) fuel input now = Ok cfg now1 ->
        StateGraph.step (workflow env) cfg now1 = Ok cfg' now2 ->
        GraphState.documents (snd cfg) = Some ds ->
        ds <> [] ->
        exists ds',
          GraphState.documents (snd cfg') = Some ds'
          /\ length ds <= length ds').
Proof.
  intros H.
  destruct (H (sample_env "vectorstore" (PyBool true) (PyBool true)) 1
              sample_input 0
              (GRADE_DOCUMENTS,
               GraphState.mk (Some "What is an agent?") None None
                 (Some [doc_agents; doc_pasta]))
              2
              (WEBSEARCH,
               GraphState.mk (Some "What is an agent?") None (Some true)
                 (Some [doc_agents]))
              4 [doc_agents; doc_pasta])
    as (ds' & Hds' & Hlen).
  - vm_compute. reflexivity.
  - vm_compute. reflexivity.
  - reflexivity.
  - discriminate.
  - simpl in Hds'. injection Hds' as <-. simpl in Hlen. lia.
Qed.

(** ** Unbounded cycles *)

Section Cycles.

Variable env : Services.

Lemma generate_ne_end : GENERATE <> END.
Proof. discriminate. Qed.

Lemma websearch_ne_end : WEBSEARCH <> END.
Proof. discriminate. Qed.

(** Persistent "not supported": every step from GENERATE comes back to
    GENERATE. *)
Lemma generate_self_loop n :
  (forall t x, truthy (hallucination_grader env t x) = false) ->
  forall state q ds now,
    GraphState.question state = Some q ->
    GraphState.documents state = Some ds ->
    exists state' now',
      StateGraph.steps (workflow env) n (GENERATE, state) now
      = Ok (GENERATE, state') now'.
Proof.
  intros Hno. induction n as [|n IH]; intros state q ds now Hq Hd.
  - exists state, now. reflexivity.
  - rewrite (steps_succ env n GENERATE state now generate_ne_end).
    rewrite (step_generate env state q ds now Hq Hd).
    unfold outcome_of. rewrite !Hno.
    change (target_of "not supported") with GENERATE.
    eapply IH; reflexivity.
Qed.

(** Persistent "not useful": GENERATE and WEBSEARCH alternate. *)
Lemma generate_websearch_cycle n :
  (forall t x, truthy (hallucination_grader env t x) = true) ->
  (forall t x, truthy (answer_grader env t x) = false) ->
  forall state q ds now,
    GraphState.question state = Some q ->
    GraphState.documents state = Some ds ->
    (exists state' now',
        StateGraph.steps (workflow env) n (GENERATE, state) now
        = Ok (if Nat.even n then GENERATE else WEBSEARCH, state') now')
    /\ (exists state' now',
           StateGraph.steps (workflow env) n (WEBSEARCH, state) now
           = Ok (if Nat.even n then WEBSEARCH else GENERATE, state') now').
Proof.
  intros Hyes Hno. induction n as [|n IH]; intros state q ds now Hq Hd.
  - split; exists state, now; reflexivity.
  - rewrite Nat.even_succ, <- Nat.negb_even. split.
    + rewrite (steps_succ env n GENERATE state now generate_ne_end).
      rewrite (step_generate env state q ds now Hq Hd).
      unfold outcome_of. rewrite !Hyes, !Hno.
      change (target_of "not useful") with WEBSEARCH.
      edestruct IH as [_ (state' & now' & Hrun)];
        [| |exists state', now'; rewrite Hrun;
            destruct (Nat.even n); reflexivity]; reflexivity.
    + rewrite (steps_succ env n WEBSEARCH state now websearch_ne_end).
      rewrite (step_web_search env state q now Hq).
      edestruct IH as [(state' & now' & Hrun) _];
        [| |exists state', now'; rewrite Hrun;
            destruct (Nat.even n); reflexivity]; reflexivity.
Qed.

End Cycles.

(** ** The recursion limit of the compiled graph *)

Section RecursionLimit.

Variable g : StateGraph.t.

Lemma steps_unfold n cfg now :
  StateGraph.steps g (S n) cfg now
  = if String.eqb (fst cfg) END then Ok cfg now
    else match StateGraph.step g cfg now with
         | Ok cfg' t => StateGraph.steps g n cfg' t
         | Raise e t => Raise e t
         end.
Proof. simpl. destruct (String.eqb (fst cfg) END); reflexivity. Qed.

Lemma app_steps_unfold limit n cfg now :
  StateGraph.app_steps g limit (S n) cfg now
  = if String.eqb (fst cfg) END then Ok cfg now
    else match limit with
         | 0 => Raise GraphRecursionError now
         | S limit' =>
             match StateGraph.step g cfg now with
             | Ok cfg' t => StateGraph.app_steps g limit' n cfg' t
             | Raise e t => Raise e t
             end
         end.
Proof.
  simpl. destruct (String.eqb (fst cfg) END); [reflexivity|].
  destruct limit; reflexivity.
Qed.

(** Within the limit the compiled graph does what the graph's step
    function does. *)
Lemma app_steps_within_limit limit n cfg now :
  n <= limit ->
  StateGraph.app_steps g limit n cfg now = StateGraph.steps g n cfg now.
Proof.
  revert limit cfg now. induction n as [|n IH]; intros limit cfg now Hle.
  - reflexivity.
  - destruct limit as [|limit]; [lia|].
    rewrite app_steps_unfold, steps_unfold.
    destruct (String.eqb (fst cfg) END); [reflexivity|].
    destruct (StateGraph.step g cfg now) as [cfg' t|e t]; [|reflexivity].
    apply IH. lia.
Qed.

(** A run that is not at [END] after any number of steps up to the limit
    is stopped with [GraphRecursionError]. *)
Lemma app_steps_out_of_steps limit :
  forall n cfg now,
    limit < n ->
    (forall m, m <= limit ->
               exists cfg' now',
                 StateGraph.steps g m cfg now = Ok cfg' now' /\ fst cfg' <> END) ->
    exists t, StateGraph.app_steps g limit n cfg now = Raise GraphRecursionError t.
Proof.
  induction limit as [|limit IH]; intros n cfg now Hlt Hinv;
    (destruct n as [|n]; [lia|]);
    destruct (Hinv 0 ltac:(lia)) as (cfg0 & t0 & H0 & Hne);
    apply ret_Ok in H0 as [-> ->];
    rewrite app_steps_unfold;
    (destruct (String.eqb_spec (fst cfg) END) as [Heq|_]; [contradiction|]).
  - exists now. reflexivity.
  - destruct (Hinv 1 ltac:(lia)) as (cfg1 & t1 & H1 & _).
    rewrite steps_unfold in H1.
    destruct (String.eqb_spec (fst cfg) END) as [Heq|_]; [contradiction|].
    destruct (StateGraph.step g cfg now) as [cfg' t|e t] eqn:Hstep;
      [|discriminate].
    apply IH; [lia|]. intros m Hm.
    destruct (Hinv (S m) ltac:(lia)) as (cfgm & tm & Hrun & Hnem).
    rewrite steps_unfold, Hstep in Hrun.
    destruct (String.eqb_spec (fst cfg) END) as [Heq|_]; [contradiction|].
    exists cfgm, tm. split; assumption.
Qed.

End RecursionLimit.

(** C7, as amended: the graph has no iteration cap of its own.  While the
    hallucination verdict is false at every call, every step from GENERATE
    comes back to GENERATE; while the hallucination verdict is true and
    the answer verdict false, the steps alternate between GENERATE and
    WEBSEARCH; END is never reached, however many steps are taken.  The
    traversal is not endless, though: the compiled graph performs the
    steps up to its recursion limit and is then stopped with
    GraphRecursionError. *)
Theorem persistent_rejection_ends_only_by_recursion_limit
    env limit state q ds now :
  GraphState.question state = Some q ->
  GraphState.documents state = Some ds ->
  ((forall t x, truthy (hallucination_grader env t x) = false) ->
   (forall n, exists state' now',
       StateGraph.steps (workflow env) n (GENERATE, state) now
       = Ok (GENERATE, state') now'
       /\ GENERATE <> END)
   /\ (forall n, n <= limit ->
         exists state' now',
           StateGraph.app_steps (workflow env) limit n (GENERATE, state) now
           = Ok (GENERATE, state') now')
   /\ (forall n, limit < n ->
         exists now',
           StateGraph.app_steps (workflow env) limit n (GENERATE, state) now
           = Raise GraphRecursionError now'))
  /\ ((forall t x, truthy (hallucination_grader env t x) = true) ->
      (forall t x, truthy (answer_grader env t x) = false) ->
      (forall n, exists node state' now',
          StateGraph.steps (workflow env) n (GENERATE, state) now
          = Ok (node, state') now'
          /\ node = (if Nat.even n then GENERATE else WEBSEARCH)
          /\ node <> END)
      /\ (forall n, n <= limit ->
            exists state' now',
              StateGraph.app_steps (workflow env) limit n (GENERATE, state) now
              = Ok (if Nat.even n then GENERATE else WEBSEARCH, state') now')
      /\ (forall n, limit < n ->
            exists now',
              StateGraph.app_steps (workflow env) limit n (GENERATE, state) now
              = Raise GraphRecursionError now')).
Proof.
  intros Hq Hd. split.
  - intros Hno.
    assert (Hloop : forall n, exists state' now',
               StateGraph.steps (workflow env) n (GENERATE, state) now
               = Ok (GENERATE, state') now').
    { intros n. exact (generate_self_loop env n Hno state q ds now Hq Hd). }
    split; [|split].
    + intros n. destruct (Hloop n) as (state' & now' & Hrun).
      exists state', now'. split; [exact Hrun|discriminate].
    + intros n Hle. rewrite (app_steps_within_limit _ limit n _ now Hle).
      apply Hloop.
    + intros n Hlt. apply app_steps_out_of_steps; [exact Hlt|].
      intros m _. destruct (Hloop m) as (state' & now' & Hrun).
      exists (GENERATE, state'), now'. split; [exact Hrun|discriminate].
  - intros Hyes Hno.
    assert (Hcycle : forall n, exists state' now',
               StateGraph.steps (workflow env) n (GENERATE, state) now
               = Ok (if Nat.even n then GENERATE else WEBSEARCH, state') now').
    { intros n.
      exact (proj1 (generate_websearch_cycle env n Hyes Hno state q ds now Hq Hd)). }
    split; [|split].
    + intros n. destruct (Hcycle n) as (state' & now' & Hrun).
      eexists _, state', now'. split; [exact Hrun|]. split; [reflexivity|].
      destruct (Nat.even n); discriminate.
    + intros n Hle. rewrite (app_steps_within_limit _ limit n _ now Hle).
      apply Hcycle.
    + intros n Hlt. apply app_steps_out_of_steps; [exact Hlt|].
      intros m _. destruct (Hcycle m) as (state' & now' & Hrun).
      eexists _, now'. split; [exact Hrun|].
      cbn [fst]. destruct (Nat.even m); discriminate.
Qed.

Lemma persistent_rejection_ends_only_by_recursion_limit_witness :
  ((forall n, exists state' now',
       StateGraph.steps (workflow (sample_env "vectorstore" (PyStr "") (PyStr "yes")))
         n (GENERATE, GraphState.mk (Some "q") None None (Some [doc_agents])) 0
       = Ok (GENERATE, state') now'
       /\ GENERATE <> END)
   /\ (forall n, 25 < n ->
         exists now',
           StateGraph.app_steps
             (workflow (sample_env "vectorstore" (PyStr "") (PyStr "yes")))
             25 n (GENERATE, GraphState.mk (Some "q") None None (Some [doc_agents])) 0
           = Raise GraphRecursionError now'))
  /\ ((forall n, exists node state' now',
          StateGraph.steps (workflow (sample_env "vectorstore" (PyStr "yes") (PyStr "")))
            n (GENERATE, GraphState.mk (Some "q") None None (Some [doc_agents])) 0
          = Ok (node, state') now'
          /\ node = (if Nat.even n then GENERATE else WEBSEARCH)
          /\ node <> END)
      /\ (forall n, 25 < n ->
            exists now',
              StateGraph.app_steps
                (workflow (sample_env "vectorstore" (PyStr "yes") (PyStr "")))
                25 n (GENERATE, GraphState.mk (Some "q") None None (Some [doc_agents])) 0
              = Raise GraphRecursionError now')).
Proof.
  split.
  - destruct (proj1 (persistent_rejection_ends_only_by_recursion_limit
                       (sample_env "vectorstore" (PyStr "") (PyStr "yes")) 25
                       (GraphState.mk (Some "q") None None (Some [doc_agents]))
                       "q" [doc_agents] 0 eq_refl eq_refl))
      as (Hsteps & _ & Hstop).
    + intros t x. reflexivity.
    + split; [exact Hsteps|exact Hstop].
  - destruct (proj2 (persistent_rejection_ends_only_by_recursion_limit
                       (sample_env "vectorstore" (PyStr "yes") (PyStr "")) 25
                       (GraphState.mk (Some "q") None None (Some [doc_agents]))
                       "q" [doc_agents] 0 eq_refl eq_refl))
      as (Hsteps & _ & Hstop).
    + intros t x. reflexivity.
    + intros t x. reflexivity.
    + split; [exact Hsteps|exact Hstop].
Defined.

(** C7, as stated, fails: the traversal does not cycle for ever.  With the
    hallucination verdict false at every call, the compiled graph with
    its default limit is stopped with GraphRecursionError once 25 steps and
    50 service calls are done; the run of a whole invocation ends the same
    way. *)
Lemma generation_loop_is_stopped_after_25_steps :
  ~ (forall env state q ds now,
        GraphState.question state = Some q ->
        GraphState.documents state = Some ds ->
        (forall t x, truthy (hallucination_grader env t x) = false) ->
        forall n, exists state' now',
          StateGraph.app_steps (workflow env) StateGraph.default_recursion_limit
            n (GENERATE, state) now
          = Ok (GENERATE, state') now').
Proof.
  intros H.
  destruct (H (sample_env "vectorstore" (PyBool false) (PyBool true))
              (GraphState.mk (Some "q") None None (Some [doc_agents]))
              "q" [doc_agents] 0 eq_refl eq_refl (fun _ _ => eq_refl) 26)
    as (state' & now' & Hrun).
  vm_compute in Hrun. discriminate Hrun.
Qed.

(** The whole invocation on the web-search route with every answer
    rejected as not supported: one router call, one search, then 24
    generations with their gradings, and the error. *)
Example app_stopped_by_recursion_limit :
  app (sample_env "websearch" (PyBool false) (PyBool true)) sample_input 0
  = Raise GraphRecursionError 50.
Proof. vm_compute. reflexivity. Qed.

(** * Further properties of the nodes, the branch functions and the graph *)

(** ** Missing keys *)

(** X1: Every function that reads [state["question"]] raises [KeyError] on a
    state without it, before any service is called: the time at the
    exception is the time of the call. *)
Theorem missing_question_raises env state now :
  GraphState.question state = None ->
  retrieve env state now = Raise (KeyError "question") now
  /\ generate env state now = Raise (KeyError "question") now
  /\ web_search env state now = Raise (KeyError "question") now
  /\ route_question env state now = Raise (KeyError "question") now
  /\ grade_generation_grounded_in_documents_and_question env state now
     = Raise (KeyError "question") now.
Proof.
  intros Hq.
  unfold retrieve, generate, web_search, route_question,
    grade_generation_grounded_in_documents_and_question, bind.
  rewrite Hq. repeat split; reflexivity.
Qed.

Lemma missing_question_raises_witness :
  retrieve (sample_env "vectorstore" (PyBool true) (PyBool true))
    GraphState.empty 0 = Raise (KeyError "question") 0
  /\ generate (sample_env "vectorstore" (PyBool true) (PyBool true))
       GraphState.empty 0 = Raise (KeyError "question") 0
  /\ web_search (sample_env "vectorstore" (PyBool true) (PyBool true))
       GraphState.empty 0 = Raise (KeyError "question") 0
  /\ route_question (sample_env "vectorstore" (PyBool true) (PyBool true))
       GraphState.empty 0 = Raise (KeyError "question") 0
  /\ grade_generation_grounded_in_documents_and_question
       (sample_env "vectorstore" (PyBool true) (PyBool true))
       GraphState.empty 0 = Raise (KeyError "question") 0.
Proof.
  apply (missing_question_raises
           (sample_env "vectorstore" (PyBool true) (PyBool true))
           GraphState.empty 0).
  reflexivity.
Defined.

(** X2: On a state with a question but no [documents] key, generate raises
    [KeyError] while web_search, which reads the key with [state.get],
    returns the one document it builds. *)
Theorem missing_documents_generate_raises_web_search_does_not env state q now :
  GraphState.question state = Some q ->
  GraphState.documents state = None ->
  generate env state now = Raise (KeyError "documents") now
  /\ web_search env state now
     = Ok (GraphState.mk (Some q) None None (Some [web_results_at env now q]))
          (S now).
Proof.
  intros Hq Hd. split.
  - unfold generate, bind. rewrite Hq, Hd. reflexivity.
  - rewrite (web_search_eq env state q now Hq), Hd. reflexivity.
Qed.

Lemma missing_documents_generate_raises_web_search_does_not_witness :
  generate (sample_env "websearch" (PyBool true) (PyBool true)) sample_input 0
  = Raise (KeyError "documents") 0
  /\ web_search (sample_env "websearch" (PyBool true) (PyBool true)) sample_input 0
     = Ok (GraphState.mk (Some "What is an agent?") None None
             (Some [web_results_at
                      (sample_env "websearch" (PyBool true) (PyBool true))
                      0 "What is an agent?"]))
          1.
Proof.
  apply (missing_documents_generate_raises_web_search_does_not
           (sample_env "websearch" (PyBool true) (PyBool true))
           sample_input "What is an agent?" 0); reflexivity.
Defined.

(** X3: A run on an input without question raises [KeyError] at the entry
    decision, whatever the step budget, and no service has been called. *)
Theorem run_without_question_raises env fuel input now :
  GraphState.question input = None ->
  StateGraph.run (workflow env) fuel input now = Raise (KeyError "question") now.
Proof.
  intros Hq. unfold StateGraph.run, StateGraph.start.
  rewrite workflow_entry. unfold bind at 1. unfold bind at 1.
  unfold getitem at 1. unfold ret at 1. unfold bind at 1.
  unfold StateGraph.take, bind. simpl StateGraph.path.
  unfold route_question, bind. rewrite Hq. reflexivity.
Qed.

Lemma run_without_question_raises_witness :
  StateGraph.run (workflow (sample_env "vectorstore" (PyBool true) (PyBool true)))
    10 (GraphState.mk None None None (Some [doc_agents])) 0
  = Raise (KeyError "question") 0.
Proof.
  apply (run_without_question_raises
           (sample_env "vectorstore" (PyBool true) (PyBool true)) 10
           (GraphState.mk None None None (Some [doc_agents])) 0).
  reflexivity.
Defined.

(** decide_to_generate calls no service: it raises [KeyError] when the
    flag is absent and otherwise returns WEBSEARCH or GENERATE at the same
    time it was called. *)
Theorem decide_to_generate_reads_only_the_flag state now :
  (GraphState.web_search state = None
   /\ decide_to_generate state now = Raise (KeyError "web_search") now)
  \/ (exists flag,
         GraphState.web_search state = Some flag
         /\ decide_to_generate state now
            = Ok (if flag then WEBSEARCH else GENERATE) now).
Proof.
  destruct (GraphState.web_search state) as [flag|] eqn:Hf.
  - right. exists flag. split; [reflexivity|].
    apply decide_to_generate_eq. exact Hf.
  - left. split; [reflexivity|]. unfold decide_to_generate, bind.
    rewrite Hf. reflexivity.
Qed.

(** The combined grading reads question, documents and generation in that
    order and raises [KeyError] for the first one missing, before any
    grader is called. *)
Theorem grade_generation_missing_keys env state q now :
  GraphState.question state = Some q ->
  (GraphState.documents state = None ->
   grade_generation_grounded_in_documents_and_question env state now
   = Raise (KeyError "documents") now)
  /\ (forall ds,
         GraphState.documents state = Some ds ->
         GraphState.generation state = None ->
         grade_generation_grounded_in_documents_and_question env state now
         = Raise (KeyError "generation") now).
Proof.
  intros Hq. unfold grade_generation_grounded_in_documents_and_question, bind.
  rewrite Hq. split.
  - intros Hd. rewrite Hd. reflexivity.
  - intros ds Hd Hg. rewrite Hd, Hg. reflexivity.
Qed.

Lemma grade_generation_missing_keys_witness :
  grade_generation_grounded_in_documents_and_question
    (sample_env "vectorstore" (PyBool true) (PyBool true)) sample_input 0
  = Raise (KeyError "documents") 0
  /\ grade_generation_grounded_in_documents_and_question
       (sample_env "vectorstore" (PyBool true) (PyBool true))
       (GraphState.mk (Some "q") None None (Some [doc_agents])) 0
     = Raise (KeyError "generation") 0.
Proof.
  split.
  - apply (proj1 (grade_generation_missing_keys
                    (sample_env "vectorstore" (PyBool true) (PyBool true))
                    sample_input "What is an agent?" 0 eq_refl)).
    reflexivity.
  - apply (proj2 (grade_generation_missing_keys
                    (sample_env "vectorstore" (PyBool true) (PyBool true))
                    (GraphState.mk (Some "q") None None (Some [doc_agents]))
                    "q" 0 eq_refl) [doc_agents]); reflexivity.
Defined.

(** ** The combined grading: which graders are called *)

(** X4: When the hallucination verdict is false the answer grader is not
    called: one grader call is made, and the result is the same whatever
    answer grader the environment has.  When it is true, exactly two
    grader calls are made. *)
Theorem answer_grader_called_only_when_supported env state q ds g now :
  GraphState.question state = Some q ->
  GraphState.documents state = Some ds ->
  GraphState.generation state = Some g ->
  (truthy (hallucination_grader env now (ds, g)) = false ->
   forall other,
     grade_generation_grounded_in_documents_and_question
       (mkServices (retriever env) (tavily env) (generation_chain env)
          (retrieval_grader env) (hallucination_grader env) other
          (question_router env))
       state now
     = Ok "not supported" (S now))
  /\ (truthy (hallucination_grader env now (ds, g)) = true ->
      exists result,
        grade_generation_grounded_in_documents_and_question env state now
        = Ok result (S (S now))
        /\ (result = "useful" \/ result = "not useful")).
Proof.
  intros Hq Hd Hg. split.
  - intros Hno other.
    rewrite (grade_generation_eq _ state q ds g now Hq Hd Hg). simpl.
    rewrite Hno. reflexivity.
  - intros Hyes.
    rewrite (grade_generation_eq env state q ds g now Hq Hd Hg), Hyes.
    destruct (truthy (answer_grader env (S now) (q, g)));
      eexists; split; eauto.
Qed.

Lemma answer_grader_called_only_when_supported_witness :
  (forall other,
      grade_generation_grounded_in_documents_and_question
        (mkServices
           (retriever (sample_env "vectorstore" (PyBool false) (PyBool true)))
           (tavily (sample_env "vectorstore" (PyBool false) (PyBool true)))
           (generation_chain (sample_env "vectorstore" (PyBool false) (PyBool true)))
           (retrieval_grader (sample_env "vectorstore" (PyBool false) (PyBool true)))
           (hallucination_grader (sample_env "vectorstore" (PyBool false) (PyBool true)))
           other
           (question_router (sample_env "vectorstore" (PyBool false) (PyBool true))))
        (GraphState.mk (Some "q") (Some "g") None (Some [doc_agents])) 0
      = Ok "not supported" 1)
  /\ (exists result,
         grade_generation_grounded_in_documents_and_question
           (sample_env "vectorstore" (PyBool true) (PyBool false))
           (GraphState.mk (Some "q") (Some "g") None (Some [doc_agents])) 0
         = Ok result 2
         /\ (result = "useful" \/ result = "not useful")).
Proof.
  split.
  - apply (proj1 (answer_grader_called_only_when_supported
                    (sample_env "vectorstore" (PyBool false) (PyBool true))
                    (GraphState.mk (Some "q") (Some "g") None (Some [doc_agents]))
                    "q" [doc_agents] "g" 0 eq_refl eq_refl eq_refl)).
    reflexivity.
  - apply (proj2 (answer_grader_called_only_when_supported
                    (sample_env "vectorstore" (PyBool true) (PyBool false))
                    (GraphState.mk (Some "q") (Some "g") None (Some [doc_agents]))
                    "q" [doc_agents] "g" 0 eq_refl eq_refl eq_refl)).
    reflexivity.
Defined.

Lemma truthy_nonempty_string s : s <> "" -> truthy (PyStr s) = true.
Proof.
  intros Hs. unfold truthy. destruct (String.eqb_spec s ""); [contradiction|].
  reflexivity.
Qed.

(** X5: When both graders answer with non-empty strings ("yes" and "no"
    included), every GENERATE step calls both graders and goes to END. *)
Theorem string_verdicts_always_accept env state q ds now :
  (forall t x, exists s, hallucination_grader env t x = PyStr s /\ s <> "") ->
  (forall t x, exists s, answer_grader env t x = PyStr s /\ s <> "") ->
  GraphState.question state = Some q ->
  GraphState.documents state = Some ds ->
  exists state',
    StateGraph.step (workflow env) (GENERATE, state) now
    = Ok (END, state') (S (S (S now)))
    /\ GraphState.documents state' = Some ds.
Proof.
  intros Hh Ha Hq Hd. rewrite (step_generate env state q ds now Hq Hd).
  destruct (Hh (S now) (ds, generation_chain env now (ds, q))) as (h & -> & Hne).
  destruct (Ha (S (S now)) (q, generation_chain env now (ds, q))) as (a & -> & Hne').
  rewrite (outcome_of_nonempty_strings h a Hne Hne').
  rewrite (truthy_nonempty_string h Hne).
  eexists. split; reflexivity.
Qed.

Lemma string_verdicts_always_accept_witness :
  exists state',
    StateGraph.step (workflow (sample_env "vectorstore" (PyStr "no") (PyStr "no")))
      (GENERATE, GraphState.mk (Some "q") None None (Some [doc_agents])) 0
    = Ok (END, state') 3
    /\ GraphState.documents state' = Some [doc_agents].
Proof.
  apply (string_verdicts_always_accept
           (sample_env "vectorstore" (PyStr "no") (PyStr "no"))
           (GraphState.mk (Some "q") None None (Some [doc_agents]))
           "q" [doc_agents] 0).
  - intros t x. exists "no". split; [reflexivity|discriminate].
  - intros t x. exists "no". split; [reflexivity|discriminate].
  - reflexivity.
  - reflexivity.
Defined.

(** ** Shape of the graph *)

Section Shape.

Variable env : Services.

Lemma workflow_node_names name action :
  StateGraph.nodes (workflow env) !! name = Some action ->
  name = RETRIEVE \/ name = GRADE_DOCUMENTS \/ name = GENERATE \/ name = WEBSEARCH.
Proof.
  change (StateGraph.nodes (workflow env))
    with (<[WEBSEARCH := web_search env]>
            (<[GENERATE := generate env]>
               (<[GRADE_DOCUMENTS := grade_documents env]>
                  (<[RETRIEVE := retrieve env]>
                     (∅ : gmap string (GraphState.t -> M GraphState.t)))))).
  intros H.
  apply lookup_insert_Some in H as [[<- _]|[_ H]]; [tauto|].
  apply lookup_insert_Some in H as [[<- _]|[_ H]]; [tauto|].
  apply lookup_insert_Some in H as [[<- _]|[_ H]]; [tauto|].
  apply lookup_insert_Some in H as [[<- _]|[_ H]]; [tauto|].
  rewrite lookup_empty in H. discriminate.
Qed.

Lemma workflow_branches_inv source b :
  StateGraph.branches (workflow env) !! source = Some b ->
  b = StateGraph.mkBranch
        (grade_generation_grounded_in_documents_and_question env)
        (<["not supported" := GENERATE]>
           (<["useful" := END]> (<["not useful" := WEBSEARCH]> ∅)))
  \/ b = StateGraph.mkBranch decide_to_generate
           (<[WEBSEARCH := WEBSEARCH]> (<[GENERATE := GENERATE]> ∅)).
Proof.
  change (StateGraph.branches (workflow env))
    with (<[GENERATE :=
              StateGraph.mkBranch
                (grade_generation_grounded_in_documents_and_question env)
                (<["not supported" := GENERATE]>
                   (<["useful" := END]> (<["not useful" := WEBSEARCH]> ∅)))]>
            (<[GRADE_DOCUMENTS :=
                 StateGraph.mkBranch decide_to_generate
                   (<[WEBSEARCH := WEBSEARCH]> (<[GENERATE := GENERATE]> ∅))]>
               (∅ : gmap string StateGraph.branch))).
  intros H.
  apply lookup_insert_Some in H as [[_ <-]|[_ H]]; [tauto|].
  apply lookup_insert_Some in H as [[_ <-]|[_ H]]; [tauto|].
  rewrite lookup_empty in H. discriminate.
Qed.

Lemma workflow_edges_inv source target :
  StateGraph.edges (workflow env) !! source = Some target ->
  (source = WEBSEARCH /\ target = GENERATE)
  \/ (source = RETRIEVE /\ target = GRADE_DOCUMENTS).
Proof.
  change (StateGraph.edges (workflow env))
    with (<[WEBSEARCH := GENERATE]>
            (<[RETRIEVE := GRADE_DOCUMENTS]> (∅ : gmap string string))).
  intros H.
  apply lookup_insert_Some in H as [[<- <-]|[_ H]]; [tauto|].
  apply lookup_insert_Some in H as [[<- <-]|[_ H]]; [tauto|].
  rewrite lookup_empty in H. discriminate.
Qed.

Lemma grade_generation_results state result now now' :
  grade_generation_grounded_in_documents_and_question env state now
  = Ok result now' ->
  result = "not supported" \/ result = "useful" \/ result = "not useful".
Proof.
  destruct (GraphState.question state) as [q|] eqn:Hq.
  2:{ unfold grade_generation_grounded_in_documents_and_question, bind.
      rewrite Hq. discriminate. }
  destruct (GraphState.documents state) as [ds|] eqn:Hd.
  2:{ unfold grade_generation_grounded_in_documents_and_question, bind.
      rewrite Hq, Hd. discriminate. }
  destruct (GraphState.generation state) as [g|] eqn:Hg.
  2:{ unfold grade_generation_grounded_in_documents_and_question, bind.
      rewrite Hq, Hd, Hg. discriminate. }
  rewrite (grade_generation_eq env state q ds g now Hq Hd Hg).
  destruct (truthy (hallucination_grader env now (ds, g)));
    [destruct (truthy (answer_grader env (S now) (q, g)))|];
    intros H; injection H as <- _; tauto.
Qed.

Lemma route_question_results state result now now' :
  route_question env state now = Ok result now' ->
  result = WEBSEARCH \/ result = RETRIEVE.
Proof.
  destruct (GraphState.question state) as [q|] eqn:Hq.
  - rewrite (route_question_eq env state q now Hq).
    destruct (String.eqb (question_router env now q) WEBSEARCH);
      intros H; injection H as <- _; tauto.
  - unfold route_question, bind. rewrite Hq. discriminate.
Qed.

Lemma decide_to_generate_results state result now now' :
  decide_to_generate state now = Ok result now' ->
  result = WEBSEARCH \/ result = GENERATE.
Proof.
  destruct (GraphState.web_search state) as [flag|] eqn:Hf.
  - rewrite (decide_to_generate_eq state flag now Hf).
    destruct flag; intros H; injection H as <- _; tauto.
  - unfold decide_to_generate, bind. rewrite Hf. discriminate.
Qed.

End Shape.

(** X6: Every result a branch function of the workflow can return is a key of
    the table registered with it, and the table sends it to a registered
    node or to END: taking a conditional edge never fails on the lookup. *)
Theorem branch_results_are_table_keys env b state result now now' :
  StateGraph.entry (workflow env) = Some b
  \/ (exists source, StateGraph.branches (workflow env) !! source = Some b) ->
  StateGraph.path b state now = Ok result now' ->
  exists target,
    StateGraph.path_map b !! result = Some target
    /\ (target = END \/ is_Some (StateGraph.nodes (workflow env) !! target)).
Proof.
  intros [Hentry|[source Hb]] Hpath.
  - rewrite workflow_entry in Hentry. injection Hentry as <-.
    simpl in Hpath. apply route_question_results in Hpath as [-> | ->].
    + exists WEBSEARCH. split; [reflexivity|]. right. eexists. reflexivity.
    + exists RETRIEVE. split; [reflexivity|]. right. eexists. reflexivity.
  - apply workflow_branches_inv in Hb as [-> | ->]; simpl in Hpath.
    + apply grade_generation_results in Hpath as [-> | [-> | ->]].
      * exists GENERATE. split; [reflexivity|]. right. eexists. reflexivity.
      * exists END. split; [reflexivity|]. left. reflexivity.
      * exists WEBSEARCH. split; [reflexivity|]. right. eexists. reflexivity.
    + apply decide_to_generate_results in Hpath as [-> | ->].
      * exists WEBSEARCH. split; [reflexivity|]. right. eexists. reflexivity.
      * exists GENERATE. split; [reflexivity|]. right. eexists. reflexivity.
Qed.

Lemma branch_results_are_table_keys_witness :
  exists target,
    (<["not supported" := GENERATE]>
       (<["useful" := END]> (<["not useful" := WEBSEARCH]> (∅ : gmap string string))))
      !! "not useful" = Some target
    /\ (target = END
        \/ is_Some (StateGraph.nodes
                      (workflow (sample_env "vectorstore" (PyBool true) (PyBool false)))
                    !! target)).
Proof.
  exact (branch_results_are_table_keys
           (sample_env "vectorstore" (PyBool true) (PyBool false))
           (StateGraph.mkBranch
              (grade_generation_grounded_in_documents_and_question
                 (sample_env "vectorstore" (PyBool true) (PyBool false)))
              (<["not supported" := GENERATE]>
                 (<["useful" := END]> (<["not useful" := WEBSEARCH]> ∅))))
           (GraphState.mk (Some "q") (Some "g") None (Some [doc_agents]))
           "not useful" 0 2
           (or_intror (ex_intro _ GENERATE eq_refl)) eq_refl).
Defined.

(** X7: The graph registers exactly the four nodes, each with its own
    function; every node has a way out, a plain edge to a registered node
    or a conditional edge, never both and never none. *)
Theorem workflow_has_no_dead_end env name :
  (is_Some (StateGraph.nodes (workflow env) !! name)
   <-> name = RETRIEVE \/ name = GRADE_DOCUMENTS
       \/ name = GENERATE \/ name = WEBSEARCH)
  /\ StateGraph.nodes (workflow env) !! RETRIEVE = Some (retrieve env)
  /\ StateGraph.nodes (workflow env) !! GRADE_DOCUMENTS = Some (grade_documents env)
  /\ StateGraph.nodes (workflow env) !! GENERATE = Some (generate env)
  /\ StateGraph.nodes (workflow env) !! WEBSEARCH = Some (web_search env)
  /\ (is_Some (StateGraph.nodes (workflow env) !! name) ->
      (exists target,
          StateGraph.edges (workflow env) !! name = Some target
          /\ is_Some (StateGraph.nodes (workflow env) !! target)
          /\ StateGraph.branches (workflow env) !! name = None)
      \/ (StateGraph.edges (workflow env) !! name = None
          /\ is_Some (StateGraph.branches (workflow env) !! name))).
Proof.
  assert (Hnames : is_Some (StateGraph.nodes (workflow env) !! name) ->
                   name = RETRIEVE \/ name = GRADE_DOCUMENTS
                   \/ name = GENERATE \/ name = WEBSEARCH).
  { intros [action Hn]. exact (workflow_node_names env name action Hn). }
  split; [split; [exact Hnames|]|].
  { intros [-> | [-> | [-> | ->]]]; eexists; reflexivity. }
  split; [reflexivity|]. split; [reflexivity|].
  split; [reflexivity|]. split; [reflexivity|].
  intros Hn. destruct (Hnames Hn) as [-> | [-> | [-> | ->]]].
  - left. exists GRADE_DOCUMENTS. split; [reflexivity|].
    split; [eexists|]; reflexivity.
  - right. split; [|eexists]; reflexivity.
  - right. split; [|eexists]; reflexivity.
  - left. exists GENERATE. split; [reflexivity|].
    split; [eexists|]; reflexivity.
Qed.

(** ** What each node leaves alone *)

Section Frames.

Variable env : Services.

Lemma step_keeps_flag cfg cfg' now now' :
  past_grading (fst cfg) ->
  StateGraph.step (workflow env) cfg now = Ok cfg' now' ->
  past_grading (fst cfg')
  /\ GraphState.web_search (snd cfg') = GraphState.web_search (snd cfg).
Proof.
  destruct cfg as [node state]. cbn [fst snd].
  intros [-> | [-> | ->]] Hstep.
  - destruct (GraphState.question state) as [q|] eqn:Hq.
    2:{ destruct (step_generate_raises env state now (or_introl Hq)) as (e & t & He).
        congruence. }
    destruct (GraphState.documents state) as [ds|] eqn:Hd.
    2:{ destruct (step_generate_raises env state now (or_intror Hd)) as (e & t & He).
        congruence. }
    rewrite (step_generate env state q ds now Hq Hd) in Hstep.
    injection Hstep as <- _. cbn [fst snd]. split; [apply target_of_past_grading|].
    simpl. destruct (GraphState.web_search state); reflexivity.
  - destruct (GraphState.question state) as [q|] eqn:Hq.
    2:{ destruct (step_web_search_raises env state now Hq) as (e & t & He). congruence. }
    rewrite (step_web_search env state q now Hq) in Hstep.
    injection Hstep as <- _. cbn [fst snd]. split; [left; reflexivity|].
    simpl. destruct (GraphState.web_search state); reflexivity.
  - destruct (step_end_raises env state now) as (e & t & He). congruence.
Qed.

Lemma steps_keep_flag n cfg cfg' now now' :
  past_grading (fst cfg) ->
  StateGraph.steps (workflow env) n cfg now = Ok cfg' now' ->
  GraphState.web_search (snd cfg') = GraphState.web_search (snd cfg).
Proof.
  revert cfg now. induction n as [|n IH]; intros cfg now Hpast Hrun.
  - apply ret_Ok in Hrun as [-> _]. reflexivity.
  - simpl in Hrun. destruct (String.eqb (fst cfg) END).
    + apply ret_Ok in Hrun as [-> _]. reflexivity.
    + apply bind_Ok in Hrun as (mid & t & Hstep & Hrun).
      destruct (step_keeps_flag cfg mid now t Hpast Hstep) as [Hpast' Hflag].
      rewrite (IH mid t Hpast' Hrun). exact Hflag.
Qed.

End Frames.

(** X8: retrieve, generate and web_search never return the [web_search] key,
    so from GENERATE or WEBSEARCH on the flag keeps, through every later
    step, the value it had (set by grade_documents, or absent). *)
Theorem flag_never_written_after_grading env n cfg cfg' now now' :
  fst cfg = GENERATE \/ fst cfg = WEBSEARCH ->
  StateGraph.steps (workflow env) n cfg now = Ok cfg' now' ->
  GraphState.web_search (snd cfg') = GraphState.web_search (snd cfg).
Proof.
  intros Hnode Hrun. apply (steps_keep_flag env n cfg cfg' now now'); [|exact Hrun].
  unfold past_grading. tauto.
Qed.

Lemma flag_never_written_after_grading_witness :
  exists cfg' now',
    StateGraph.steps (workflow (sample_env "websearch" (PyBool true) (PyBool false)))
      5 (WEBSEARCH, GraphState.mk (Some "q") None (Some true) (Some [doc_agents])) 0
    = Ok cfg' now'
    /\ GraphState.web_search (snd cfg') = Some true.
Proof.
  destruct (StateGraph.steps
              (workflow (sample_env "websearch" (PyBool true) (PyBool false)))
              5 (WEBSEARCH, GraphState.mk (Some "q") None (Some true) (Some [doc_agents]))
              0) as [cfg' now'|e] eqn:Hrun.
  - exists cfg', now'. split; [reflexivity|].
    exact (flag_never_written_after_grading
             (sample_env "websearch" (PyBool true) (PyBool false)) 5
             (WEBSEARCH, GraphState.mk (Some "q") None (Some true) (Some [doc_agents]))
             cfg' 0 now' (or_intror eq_refl) Hrun).
  - vm_compute in Hrun. discriminate Hrun.
Defined.

(** X9: retrieve looks at nothing but the question: the evidence, generation
    and flag already in the state do not change what it returns, and after
    a RETRIEVE step the evidence set is the retriever's answer while the
    generation and the flag are what they were. *)
Theorem retrieve_depends_only_on_question env state q now :
  GraphState.question state = Some q ->
  retrieve env state now
  = retrieve env (GraphState.mk (Some q) None None None) now
  /\ exists state',
       StateGraph.step (workflow env) (RETRIEVE, state) now
       = Ok (GRADE_DOCUMENTS, state') (S now)
       /\ GraphState.documents state' = Some (retriever env now q)
       /\ GraphState.generation state' = GraphState.generation state
       /\ GraphState.web_search state' = GraphState.web_search state.
Proof.
  intros Hq. split.
  - rewrite (retrieve_eq env state q now Hq). reflexivity.
  - eexists. split; [apply step_retrieve; exact Hq|]. simpl.
    split; [reflexivity|].
    split; [destruct (GraphState.generation state)
           |destruct (GraphState.web_search state)]; reflexivity.
Qed.

Lemma retrieve_depends_only_on_question_witness :
  retrieve (sample_env "vectorstore" (PyBool true) (PyBool true))
    (GraphState.mk (Some "q") (Some "old") (Some true) (Some [doc_pasta])) 0
  = retrieve (sample_env "vectorstore" (PyBool true) (PyBool true))
      (GraphState.mk (Some "q") None None None) 0
  /\ exists state',
       StateGraph.step (workflow (sample_env "vectorstore" (PyBool true) (PyBool true)))
         (RETRIEVE,
          GraphState.mk (Some "q") (Some "old") (Some true) (Some [doc_pasta])) 0
       = Ok (GRADE_DOCUMENTS, state') 1
       /\ GraphState.documents state' = Some [doc_agents; doc_pasta]
       /\ GraphState.generation state' = Some "old"
       /\ GraphState.web_search state' = Some true.
Proof.
  apply (retrieve_depends_only_on_question
           (sample_env "vectorstore" (PyBool true) (PyBool true))
           (GraphState.mk (Some "q") (Some "old") (Some true) (Some [doc_pasta]))
           "q" 0).
  reflexivity.
Defined.

(** X10: A WEBSEARCH step leaves the previous generation in the state: the
    answer that was just graded not useful stays there until GENERATE
    overwrites it. *)
Theorem web_search_step_keeps_generation env state q now :
  GraphState.question state = Some q ->
  exists state',
    StateGraph.step (workflow env) (WEBSEARCH, state) now
    = Ok (GENERATE, state') (S now)
    /\ GraphState.generation state' = GraphState.generation state
    /\ GraphState.web_search state' = GraphState.web_search state.
Proof.
  intros Hq. eexists. split; [apply step_web_search; exact Hq|]. simpl.
  split; [destruct (GraphState.generation state)
         |destruct (GraphState.web_search state)]; reflexivity.
Qed.

Lemma web_search_step_keeps_generation_witness :
  exists state',
    StateGraph.step (workflow (sample_env "websearch" (PyBool true) (PyBool false)))
      (WEBSEARCH, GraphState.mk (Some "q") (Some "old answer") None (Some [doc_agents]))
      0
    = Ok (GENERATE, state') 1
    /\ GraphState.generation state' = Some "old answer"
    /\ GraphState.web_search state' = None.
Proof.
  apply (web_search_step_keeps_generation
           (sample_env "websearch" (PyBool true) (PyBool false))
           (GraphState.mk (Some "q") (Some "old answer") None (Some [doc_agents]))
           "q" 0).
  reflexivity.
Defined.

(** ** Whole traversals *)

(** X12: The web-search route when the first answer is accepted: the router
    says "websearch" and both verdicts are true.  With a budget of at
    least two steps the run ends at END after five service calls (router,
    search, generation, two graders), with the input's evidence followed
    by the one web document, a generation, and the question unchanged. *)
Theorem websearch_route_accepts_after_two_steps env fuel input q now :
  GraphState.question input = Some q ->
  question_router env now q = "websearch" ->
  (forall t x, truthy (hallucination_grader env t x) = true) ->
  (forall t x, truthy (answer_grader env t x) = true) ->
  2 <= fuel ->
  exists state',
    StateGraph.run (workflow env) fuel input now = Ok (END, state') (now + 5)
    /\ GraphState.documents state'
       = Some (default [] (GraphState.documents input)
               ++ [web_results_at env (S now) q])
    /\ GraphState.question state' = Some q
    /\ GraphState.generation state'
       = Some (generation_chain env (S (S now))
                 (default [] (GraphState.documents input)
                  ++ [web_results_at env (S now) q], q)).
Proof.
  intros Hq Hroute Hh Ha Hfuel.
  destruct fuel as [|[|fuel]]; [lia|lia|].
  unfold StateGraph.run, bind. rewrite (start_eq env input q now Hq), Hroute.
  change (String.eqb "websearch" WEBSEARCH) with true. cbv iota.
  rewrite (steps_succ env (S fuel) WEBSEARCH input (S now) (websearch_ne_end)).
  rewrite (step_web_search env input q (S now) Hq).
  rewrite (steps_succ env fuel GENERATE _ (S (S now)) generate_ne_end).
  erewrite step_generate by reflexivity.
  unfold outcome_of. rewrite !Hh, !Ha.
  change (target_of "useful") with END. rewrite steps_end.
  eexists. split.
  - f_equal. lia.
  - simpl. repeat split; reflexivity.
Qed.

Lemma websearch_route_accepts_after_two_steps_witness :
  exists state',
    StateGraph.run (workflow (sample_env "websearch" (PyBool true) (PyBool true)))
      7 sample_input 0 = Ok (END, state') (0 + 5)
    /\ GraphState.documents state'
       = Some ([] ++ [web_results_at
                        (sample_env "websearch" (PyBool true) (PyBool true))
                        1 "What is an agent?"])
    /\ GraphState.question state' = Some "What is an agent?"
    /\ GraphState.generation state'
       = Some "An agent plans, remembers and uses tools.".
Proof.
  apply (websearch_route_accepts_after_two_steps
           (sample_env "websearch" (PyBool true) (PyBool true))
           7 sample_input "What is an agent?" 0).
  - reflexivity.
  - reflexivity.
  - intros t x. reflexivity.
  - intros t x. reflexivity.
  - lia.
Defined.

(** X13: The regeneration loop: while the hallucination verdict stays false,
    [n] steps from GENERATE make [2 * n] service calls (one generation and
    one grading each) and leave the evidence set, the question and the
    flag exactly as they were. *)
Theorem not_supported_loop_costs_two_calls_per_step env n state q ds now :
  (forall t x, truthy (hallucination_grader env t x) = false) ->
  GraphState.question state = Some q ->
  GraphState.documents state = Some ds ->
  exists state',
    StateGraph.steps (workflow env) n (GENERATE, state) now
    = Ok (GENERATE, state') (now + 2 * n)
    /\ GraphState.documents state' = Some ds
    /\ GraphState.question state' = Some q
    /\ GraphState.web_search state' = GraphState.web_search state.
Proof.
  intros Hno. revert state now.
  induction n as [|n IH]; intros state now Hq Hd.
  - exists state. replace (now + 2 * 0) with now by lia.
    repeat split; assumption || reflexivity.
  - rewrite (steps_succ env n GENERATE state now generate_ne_end).
    rewrite (step_generate env state q ds now Hq Hd).
    unfold outcome_of. rewrite !Hno.
    change (target_of "not supported") with GENERATE.
    edestruct (IH (GraphState.update state
                     (GraphState.mk (Some q)
                        (Some (generation_chain env now (ds, q))) None (Some ds)))
                  (S (S now)))
      as (state' & Hrun & Hdocs & Hquest & Hflag); [reflexivity|reflexivity|].
    exists state'. replace (now + 2 * S n) with (S (S now) + 2 * n) by lia.
    split; [exact Hrun|]. split; [exact Hdocs|]. split; [exact Hquest|].
    rewrite Hflag. simpl. destruct (GraphState.web_search state); reflexivity.
Qed.

Lemma not_supported_loop_costs_two_calls_per_step_witness :
  exists state',
    StateGraph.steps (workflow (sample_env "vectorstore" (PyBool false) (PyBool true)))
      6 (GENERATE, GraphState.mk (Some "q") None (Some false) (Some [doc_agents])) 0
    = Ok (GENERATE, state') (0 + 2 * 6)
    /\ GraphState.documents state' = Some [doc_agents]
    /\ GraphState.question state' = Some "q"
    /\ GraphState.web_search state' = Some false.
Proof.
  apply (not_supported_loop_costs_two_calls_per_step
           (sample_env "vectorstore" (PyBool false) (PyBool true)) 6
           (GraphState.mk (Some "q") None (Some false) (Some [doc_agents]))
           "q" [doc_agents] 0).
  - intros t x. reflexivity.
  - reflexivity.
  - reflexivity.
Defined.

(** X14: The re-search cycle: while the hallucination verdict stays true and
    the answer verdict false, every round GENERATE, WEBSEARCH makes four
    service calls and adds one document, so after [k] rounds the run is
    back at GENERATE with [k] more documents than it started with. *)
Theorem not_useful_cycle_adds_one_document_per_round env k state q ds now :
  (forall t x, truthy (hallucination_grader env t x) = true) ->
  (forall t x, truthy (answer_grader env t x) = false) ->
  GraphState.question state = Some q ->
  GraphState.documents state = Some ds ->
  exists state' ext,
    StateGraph.steps (workflow env) (2 * k) (GENERATE, state) now
    = Ok (GENERATE, state') (now + 4 * k)
    /\ GraphState.documents state' = Some (ds ++ ext)
    /\ length ext = k.
Proof.
  intros Hyes Hno. revert state ds now.
  induction k as [|k IH]; intros state ds now Hq Hd.
  - exists state, []. replace (now + 4 * 0) with now by lia.
    rewrite app_nil_r. repeat split; assumption || reflexivity.
  - replace (2 * S k) with (S (S (2 * k))) by lia.
    rewrite (steps_succ env (S (2 * k)) GENERATE state now generate_ne_end).
    rewrite (step_generate env state q ds now Hq Hd).
    unfold outcome_of. rewrite !Hyes, !Hno.
    change (target_of "not useful") with WEBSEARCH.
    rewrite (steps_succ env (2 * k) WEBSEARCH _ _ websearch_ne_end).
    erewrite step_web_search by reflexivity.
    edestruct (IH (GraphState.update
                     (GraphState.update state
                        (GraphState.mk (Some q)
                           (Some (generation_chain env now (ds, q))) None (Some ds)))
                     (GraphState.mk (Some q) None None
                        (Some (ds ++ [web_results_at env (S (S (S now))) q]))))
                  (ds ++ [web_results_at env (S (S (S now))) q])
                  (S (S (S (S now)))))
      as (state' & ext & Hrun & Hdocs & Hlen); [reflexivity|reflexivity|].
    exists state', (web_results_at env (S (S (S now))) q :: ext).
    replace (now + 4 * S k) with (S (S (S (S now))) + 4 * k) by lia.
    split; [exact Hrun|]. split.
    + rewrite Hdocs, <- app_assoc. reflexivity.
    + simpl. rewrite Hlen. reflexivity.
Qed.

Lemma not_useful_cycle_adds_one_document_per_round_witness :
  exists state' ext,
    StateGraph.steps (workflow (sample_env "vectorstore" (PyBool true) (PyBool false)))
      (2 * 3) (GENERATE, GraphState.mk (Some "q") None None (Some [doc_agents])) 0
    = Ok (GENERATE, state') (0 + 4 * 3)
    /\ GraphState.documents state' = Some ([doc_agents] ++ ext)
    /\ length ext = 3.
Proof.
  apply (not_useful_cycle_adds_one_document_per_round
           (sample_env "vectorstore" (PyBool true) (PyBool false)) 3
           (GraphState.mk (Some "q") None None (Some [doc_agents]))
           "q" [doc_agents] 0).
  - intros t x. reflexivity.
  - intros t x. reflexivity.
  - reflexivity.
  - reflexivity.
Defined.
